(** * promptpulse environmental service: model and verification

    The service estimates the energy, CO2 and tree-equivalents of a language
    model call.  This development embeds the four source modules

      - [ecologits_calculator.py] (model energy table),
      - [carbon_intensity.py]     (carbon intensity resolver),
      - [utils.py]                (request validator and impact formatter),
      - [app.py]                  (request handlers and result cache)

    as Rocq functions and proves properties of them.

    Python values are modelled as follows.
      - [float] is IEEE binary64, taken from the Standard Library's
        [SpecFloat] with precision 53 and maximal exponent 1024; arithmetic
        rounds to nearest, ties to even, as CPython's does.
      - [int] is [Z]; the conversion to [float] raises [OverflowError] when
        the rounded value is not finite.
      - [str] is [string], read as a sequence of code points below 256;
        [lower] and [strip] follow CPython on that range.
      - a [dict] whose iteration order is observed is an insertion-ordered
        association list ([odict]); a [dict] that is only looked up is a
        [gmap].
      - exceptions are values of [exn], carried by [result]. *)

From Stdlib Require Import ZArith Lia Bool Ascii String.
From Stdlib Require Import Floats.SpecFloat.
From stdpp Require Import gmap strings list pretty.

Local Open Scope string_scope.
Local Open Scope Z_scope.

(** ** Python runtime semantics used by the service *)

Module Py.

(** *** Exceptions *)

(** An exception with the text [str(e)] gives; the texts are CPython 3.12's. *)
Inductive exn :=
  | OverflowError (msg : string)
  | TypeError (msg : string)
  | KeyError (msg : string)
  | ValueError (msg : string).

Definition exn_str (e : exn) : string :=
  match e with
  | OverflowError m | TypeError m | KeyError m | ValueError m => m
  end.

Inductive result (A : Type) :=
  | Ok (a : A)
  | Raise (e : exn).

Arguments Ok {A} a.
Arguments Raise {A} e.

Definition bind {A B} (r : result A) (k : A -> result B) : result B :=
  match r with
  | Ok a => k a
  | Raise e => Raise e
  end.

Definition try_except {A} (body : result A) (handler : exn -> result A) : result A :=
  match body with
  | Ok a => Ok a
  | Raise e => handler e
  end.

Notation "'let*' x ':=' r 'in' k" := (bind r (fun x => k))
  (at level 10, x name, r at level 100, k at level 200).

(** *** Binary64 floats *)

Definition prec : Z := 53.
Definition emax : Z := 1024.

Abbreviation float := spec_float.

Definition fadd : float -> float -> float := SFadd prec emax.
Definition fmul : float -> float -> float := SFmul prec emax.
Definition fdiv : float -> float -> float := SFdiv prec emax.
Definition fle : float -> float -> bool := SFleb.
Definition flt : float -> float -> bool := SFltb.
Definition feq : float -> float -> bool := SFeqb.

(** The float nearest to an integer. *)
Definition of_Z (z : Z) : float := binary_normalize prec emax z 0 false.

(** The float nearest to [num / den]: the value of a decimal literal whose
    digits are [num] and whose scale is [den] (both below 2^53). *)
Definition literal (num den : Z) : float := fdiv (of_Z num) (of_Z den).

Definition fzero : float := S754_zero false.

(** [float(n)] and the implicit conversion in [n * x]. *)
Definition float_of_int (z : Z) : result float :=
  match of_Z z with
  | S754_infinity _ => Raise (OverflowError "int too large to convert to float")
  | f => Ok f
  end.

(** A value that is an [int] or a [float]. *)
Inductive num :=
  | Int (z : Z)
  | Float (f : float).

Definition to_float (n : num) : result float :=
  match n with
  | Int z => float_of_int z
  | Float f => Ok f
  end.

(** Truth value of a float: zero of either sign is false, [nan] is true. *)
Definition float_truthy (f : float) : bool :=
  match f with
  | S754_zero _ => false
  | _ => true
  end.

(** The integer nearest to [n / d] for [d > 0], ties to the even one. *)
Definition round_half_even (n d : Z) : Z :=
  let q := n / d in
  match (2 * (n mod d)) ?= d with
  | Lt => q
  | Gt => q + 1
  | Eq => if Z.even q then q else q + 1
  end.

(** The integer nearest to [m * 2^e * 10^digits], ties to even: the decimal
    digits CPython's correctly rounded [dtoa] produces for a finite float. *)
Definition scaled_int (m : positive) (e : Z) (digits : Z) : Z :=
  match e with
  | Zneg k => round_half_even (Zpos m * 10 ^ digits) (2 ^ Zpos k)
  | _ => Zpos m * 2 ^ e * 10 ^ digits
  end.

(** [round(x, digits)] for [digits >= 0]: the decimal rounding of the exact
    value of [x], read back as the nearest float; zeros, infinities and
    [nan] round to themselves. *)
Definition round_ndigits (x : float) (digits : Z) : float :=
  match x with
  | S754_finite s m e =>
      match scaled_int m e digits with
      | Zpos k => fdiv (S754_finite s k 0) (of_Z (10 ^ digits))
      | _ => S754_zero s
      end
  | _ => x
  end.

(** [round(x)]: the nearest integer, ties to even. *)
Definition round_int (x : float) : result Z :=
  match x with
  | S754_zero _ => Ok 0
  | S754_finite s m e => Ok (if s then - scaled_int m e 0 else scaled_int m e 0)
  | S754_infinity _ => Raise (OverflowError "cannot convert float infinity to integer")
  | S754_nan => Raise (ValueError "cannot convert float NaN to integer")
  end.

(** [str(n)] for an integer. *)
Definition str_of_int (z : Z) : string := pretty z.

(** [f"{x:.1f}"]. *)
Definition format_1f (x : float) : string :=
  let sign (s : bool) := if s then "-" else "" in
  match x with
  | S754_nan => "nan"
  | S754_infinity s => sign s +:+ "inf"
  | S754_zero s => sign s +:+ "0.0"
  | S754_finite s m e =>
      let k := scaled_int m e 1 in
      sign s +:+ str_of_int (k / 10) +:+ "." +:+ str_of_int (k mod 10)
  end.

(** *** Strings *)

Definition in_range (lo hi n : N) : bool := ((lo <=? n) && (n <=? hi))%N.

(** [c.lower()] on one code point below 256. *)
Definition lower_char (c : ascii) : ascii :=
  let n := N_of_ascii c in
  if in_range 65 90 n || in_range 192 214 n || in_range 216 222 n
  then ascii_of_N (n + 32)
  else c.

Fixpoint lower (s : string) : string :=
  match s with
  | EmptyString => EmptyString
  | String c s' => String (lower_char c) (lower s')
  end.

(** [c.isspace()] on one code point below 256. *)
Definition is_space (c : ascii) : bool :=
  let n := N_of_ascii c in
  in_range 9 13 n || in_range 28 32 n || (n =? 133)%N || (n =? 160)%N.

Fixpoint lstrip (s : string) : string :=
  match s with
  | EmptyString => EmptyString
  | String c s' => if is_space c then lstrip s' else s
  end.

Fixpoint rstrip (s : string) : string :=
  match s with
  | EmptyString => EmptyString
  | String c s' =>
      match rstrip s' with
      | EmptyString => if is_space c then EmptyString else String c EmptyString
      | r => String c r
      end
  end.

(** [s.strip()]. *)
Definition strip (s : string) : string := lstrip (rstrip s).

(** [s.startswith(p)]. *)
Definition startswith (s p : string) : bool := String.prefix p s.

(** [needle in hay] for strings. *)
Fixpoint contains (needle hay : string) : bool :=
  String.prefix needle hay ||
  match hay with
  | EmptyString => false
  | String _ hay' => contains needle hay'
  end.

(** [s.replace(c, by)] for a one-character pattern. *)
Fixpoint replace_char (c : ascii) (by_ : string) (s : string) : string :=
  match s with
  | EmptyString => EmptyString
  | String d s' =>
      if Ascii.eqb c d then by_ +:+ replace_char c by_ s'
      else String d (replace_char c by_ s')
  end.

(** *** Insertion-ordered dictionaries *)

Definition odict (V : Type) := list (string * V).

Fixpoint oget {V} (k : string) (d : odict V) : option V :=
  match d with
  | [] => None
  | (k', v) :: d' => if String.eqb k k' then Some v else oget k d'
  end.

(** [d[k] = v]: an existing key keeps its place, a new key goes last. *)
Fixpoint oset {V} (k : string) (v : V) (d : odict V) : odict V :=
  match d with
  | [] => [(k, v)]
  | (k', v') :: d' =>
      if String.eqb k k' then (k', v) :: d' else (k', v') :: oset k v d'
  end.

(** [del d[k]]. *)
Fixpoint odel {V} (k : string) (d : odict V) : odict V :=
  match d with
  | [] => []
  | (k', v') :: d' => if String.eqb k k' then d' else (k', v') :: odel k d'
  end.

Definition okeys {V} (d : odict V) : list string := map fst d.

(** *** Exceptions beyond [exn], and true division *)

(** What the functions below can raise besides an [exn]. *)
Inductive raised :=
  | Exn (e : exn)
  | ZeroDivisionError (msg : string)
  | NameError (msg : string).

Definition raised_str (e : raised) : string :=
  match e with
  | Exn e => exn_str e
  | ZeroDivisionError m | NameError m => m
  end.

Inductive outcome (A : Type) :=
  | Returns (a : A)
  | Raises (e : raised).

Arguments Returns {A} a.
Arguments Raises {A} e.

Definition lift {A} (r : result A) : outcome A :=
  match r with
  | Ok a => Returns a
  | Raise e => Raises (Exn e)
  end.

Definition obind {A B} (o : outcome A) (k : A -> outcome B) : outcome B :=
  match o with
  | Returns a => k a
  | Raises e => Raises e
  end.

Notation "'let+' x ':=' o 'in' k" := (obind o (fun x => k))
  (at level 10, x name, o at level 100, k at level 200).

(** [x / n] for a [float] and an [int]. *)
Definition float_div_int (x : float) (n : Z) : outcome float :=
  let+ d := lift (float_of_int n) in
  match d with
  | S754_zero _ => Raises (ZeroDivisionError "float division by zero")
  | _ => Returns (fdiv x d)
  end.



End Py.

(** *** JSON values, as [request.get_json()] returns them *)

#[warnings="-register-all"]
Inductive json :=
  | JNull
  | JBool (b : bool)
  | JInt (z : Z)
  | JFloat (f : Py.float)
  | JStr (s : string)
  | JArr (l : list json)
  | JObj (m : gmap string json).

Module Json.
Import Py.

(** Truth value of a JSON value in a condition. *)
Definition truthy (j : json) : bool :=
  match j with
  | JNull => false
  | JBool b => b
  | JInt z => negb (z =? 0)
  | JFloat f => float_truthy f
  | JStr s => negb (String.eqb s "")
  | JArr l => match l with [] => false | _ => true end
  | JObj m => match map_to_list m with [] => false | _ => true end
  end.

(** [isinstance(j, str)]. *)
Definition is_str (j : json) : bool :=
  match j with JStr _ => true | _ => false end.

(** [isinstance(j, int)] with the integer it stands for: [bool] is a
    subclass of [int], so [True] and [False] count as 1 and 0. *)
Definition as_int (j : json) : option Z :=
  match j with
  | JInt z => Some z
  | JBool b => Some (if b then 1 else 0)
  | _ => None
  end.

(** [type(j).__name__]. *)
Definition type_name (j : json) : string :=
  match j with
  | JNull => "NoneType"
  | JBool _ => "bool"
  | JInt _ => "int"
  | JFloat _ => "float"
  | JStr _ => "str"
  | JArr _ => "list"
  | JObj _ => "dict"
  end.

(** [str(j)] as an f-string interpolates it, for the values whose text does
    not need the shortest-digits printing of a float or the [repr] of the
    members of a container. *)
Definition str (j : json) : option string :=
  match j with
  | JNull => Some "None"
  | JBool b => Some (if b then "True" else "False")
  | JInt z => Some (str_of_int z)
  | JFloat (S754_zero s) => Some (if s then "-0.0" else "0.0")
  | JFloat _ => None
  | JStr s => Some s
  | JArr [] => Some "[]"
  | JArr _ => None
  | JObj m => match map_to_list m with [] => Some "{}" | _ => None end
  end.

End Json.

(** ** ecologits_calculator.py *)

Module ecologits_calculator.
Import Py.

Record ModelEnergyProfile := {
  name : string;
  energy_per_input_token : float;
  energy_per_output_token : float;
  base_energy : float;
  source : string
}.

Definition claude_3_5_sonnet_base : ModelEnergyProfile :=
  {| name := "claude-3-5-sonnet";
     energy_per_input_token := literal 1 10000;
     energy_per_output_token := literal 3 10000;
     base_energy := literal 1 100;
     source := "ecologits_estimate" |}.

Definition claude_models : list string :=
  [ "claude-3-5-sonnet-20241022";
    "claude-3-5-sonnet-20240620";
    "claude-3-5-sonnet";
    "claude-3-sonnet-20240229";
    "claude-3-haiku-20240307";
    "claude-3-opus-20240229" ].

(** The loop of [_initialize_model_profiles]: one assignment
    [profiles[model_name] = ...] per name, in list order. *)
Definition _initialize_model_profiles : odict ModelEnergyProfile :=
  fold_left
    (fun profiles model_name =>
       if contains "haiku" (lower model_name) then
         oset model_name
           {| name := model_name;
              energy_per_input_token := literal 5 100000;
              energy_per_output_token := literal 15 100000;
              base_energy := literal 5 1000;
              source := "ecologits_estimate" |} profiles
       else if contains "opus" (lower model_name) then
         oset model_name
           {| name := model_name;
              energy_per_input_token := literal 2 10000;
              energy_per_output_token := literal 5 10000;
              base_energy := literal 2 100;
              source := "ecologits_estimate" |} profiles
       else oset model_name claude_3_5_sonnet_base profiles)
    claude_models [].

(** [self.model_profiles], set once by [__init__]. *)
Definition model_profiles : odict ModelEnergyProfile := _initialize_model_profiles.

Definition _get_haiku_profile : ModelEnergyProfile :=
  {| name := "claude-haiku-fallback";
     energy_per_input_token := literal 5 100000;
     energy_per_output_token := literal 15 100000;
     base_energy := literal 5 1000;
     source := "fallback_estimate" |}.

Definition _get_opus_profile : ModelEnergyProfile :=
  {| name := "claude-opus-fallback";
     energy_per_input_token := literal 2 10000;
     energy_per_output_token := literal 5 10000;
     base_energy := literal 2 100;
     source := "fallback_estimate" |}.

Definition _get_sonnet_profile : ModelEnergyProfile :=
  {| name := "claude-sonnet-fallback";
     energy_per_input_token := literal 1 10000;
     energy_per_output_token := literal 3 10000;
     base_energy := literal 1 100;
     source := "fallback_estimate" |}.

Definition _get_default_profile : ModelEnergyProfile :=
  {| name := "unknown-model-fallback";
     energy_per_input_token := literal 1 10000;
     energy_per_output_token := literal 3 10000;
     base_energy := literal 1 100;
     source := "default_fallback" |}.

(** The test of the fuzzy-matching loop, on the lower-cased model id. *)
Definition fuzzy_match (model_lower profile_name : string) : bool :=
  contains (lower profile_name) model_lower || contains model_lower (lower profile_name).

Definition _get_model_profile (model : string) : ModelEnergyProfile :=
  match oget model model_profiles with
  | Some profile => profile
  | None =>
      let model_lower := lower model in
      match List.find (fun entry => fuzzy_match model_lower (fst entry)) model_profiles with
      | Some (_, profile) => profile
      | None =>
          if contains "haiku" model_lower then _get_haiku_profile
          else if contains "opus" model_lower then _get_opus_profile
          else if contains "sonnet" model_lower || contains "claude" model_lower
          then _get_sonnet_profile
          else _get_default_profile
      end
  end.

(** [n * x] for an [int] and a [float]. *)
Definition int_times_float (n : Z) (x : float) : result float :=
  let* f := float_of_int n in Ok (fmul f x).

Definition _fallback_energy_calculation (input_tokens output_tokens : Z) : result float :=
  let total_tokens := input_tokens + output_tokens in
  int_times_float total_tokens (literal 1 10000).

Definition calculate_energy_consumption
  (model : string) (input_tokens output_tokens : Z) : result float :=
  try_except
    (let profile := _get_model_profile model in
     let* input_energy := int_times_float input_tokens (energy_per_input_token profile) in
     let* output_energy := int_times_float output_tokens (energy_per_output_token profile) in
     let base_energy := base_energy profile in
     let total_energy := fadd (fadd input_energy output_energy) base_energy in
     Ok total_energy)
    (fun _ => _fallback_energy_calculation input_tokens output_tokens).

(** The three constants of a profile. *)
Definition constants (p : ModelEnergyProfile) : float * float * float :=
  (energy_per_input_token p, energy_per_output_token p, base_energy p).

(** What [test_calculation] returns: the "working" dict or the "error" one. *)
Inductive calculation_test :=
  | Working (test_energy_wh : float) (supported_models_count : nat)
  | TestError (error : string).

Definition test_calculation : calculation_test :=
  match calculate_energy_consumption "claude-3-5-sonnet-20241022" 100 200 with
  | Ok test_energy => Working test_energy (length model_profiles)
  | Raise e => TestError (exn_str e)
  end.

Definition get_model_efficiency_rating (model : string) : string :=
  let profile := _get_model_profile model in
  let avg_energy_per_token :=
    fdiv (fadd (energy_per_input_token profile) (energy_per_output_token profile)) (of_Z 2) in
  if flt avg_energy_per_token (literal 1 10000) then "highly_efficient"
  else if flt avg_energy_per_token (literal 3 10000) then "efficient"
  else if flt avg_energy_per_token (literal 5 10000) then "moderate"
  else "intensive".

(** A session dict, each key optional; the counts are integers. *)
Record session := {
  session_model : option string;
  session_input_tokens : option Z;
  session_output_tokens : option Z
}.

Record session_impact := {
  total_energy_wh : float;
  total_tokens : Z;
  average_energy_per_token : float;
  sessions_count : nat
}.

(** The loop of [estimate_session_impact], from the running totals. *)
Fixpoint sum_sessions (sessions : list session) (total_energy : float) (total_tokens : Z)
  : result (float * Z) :=
  match sessions with
  | [] => Ok (total_energy, total_tokens)
  | session :: rest =>
      let* energy :=
        calculate_energy_consumption
          (default "claude-3-5-sonnet-20241022" (session_model session))
          (default 0 (session_input_tokens session))
          (default 0 (session_output_tokens session)) in
      sum_sessions rest (fadd total_energy energy)
        (total_tokens + (default 0 (session_input_tokens session)
                         + default 0 (session_output_tokens session)))
  end.

Definition estimate_session_impact (sessions : list session) : outcome session_impact :=
  let+ totals := lift (sum_sessions sessions fzero 0) in
  let '(total_energy, total_tokens) := totals in
  let+ average :=
    if 0 <? total_tokens then float_div_int total_energy total_tokens
    else Returns fzero in
  Returns {| total_energy_wh := total_energy;
             total_tokens := total_tokens;
             average_energy_per_token := average;
             sessions_count := length sessions |}.

End ecologits_calculator.

(** ** carbon_intensity.py *)

Module carbon_intensity.
Import Py.

(** The fields [__init__] reads from the environment, and the WattTime
    token the service caches after a login. *)
Record CarbonIntensityService := {
  electricity_maps_token : option string;
  watt_time_username : option string;
  watt_time_password : option string;
  watt_time_token : option string
}.

(** Truth value of an optional string: [None] and the empty string are false. *)
Definition set_and_nonempty (o : option string) : bool :=
  match o with
  | Some s => negb (String.eqb s "")
  | None => false
  end.

(** What a provider call comes to: [Value v] when the request returned
    status 200 and the field read from its body converted to the float [v];
    [Miss] for any other status and for any exception, which the source
    catches and turns into [None]. *)
Inductive reply :=
  | Miss
  | Value (v : float).

(** The providers, as functions of what the request sends. *)
Record network := {
  electricity_maps_latest : string -> string -> reply;   (* auth token, zone *)
  watt_time_login : string -> string -> option string;   (* username, password *)
  watt_time_index : string -> string -> reply            (* bearer token, region *)
}.

Definition regional_fallbacks : gmap string Z :=
  list_to_map
    [ ("us-west-1", 350); ("us-west-2", 380); ("us-east-1", 420); ("us-east-2", 450);
      ("eu-west-1", 300); ("eu-central-1", 400); ("ap-southeast-1", 500);
      ("ap-northeast-1", 350); ("default", 400) ].

Definition aws_regions : gmap string string :=
  list_to_map
    [ ("us-west-1", "us-west-1"); ("us-west-2", "us-west-2");
      ("us-east-1", "us-east-1"); ("us-east-2", "us-east-2");
      ("eu-west-1", "eu-west-1"); ("eu-central-1", "eu-central-1");
      ("ap-southeast-1", "ap-southeast-1"); ("ap-northeast-1", "ap-northeast-1") ].

Definition location_mapping : gmap string string :=
  list_to_map
    [ ("california", "us-west-1"); ("oregon", "us-west-2"); ("washington", "us-west-2");
      ("virginia", "us-east-1"); ("ohio", "us-east-2"); ("ireland", "eu-west-1");
      ("germany", "eu-central-1"); ("singapore", "ap-southeast-1");
      ("japan", "ap-northeast-1"); ("de", "eu-central-1"); ("ie", "eu-west-1");
      ("sg", "ap-southeast-1"); ("jp", "ap-northeast-1") ].

Definition _normalize_location (location : string) : string :=
  let location := strip (lower location) in
  match aws_regions !! location with
  | Some region => region
  | None => default location (location_mapping !! location)
  end.

Definition zone_mapping : gmap string string :=
  list_to_map
    [ ("us-west-1", "US-CAL-CISO"); ("us-west-2", "US-NW-PACW"); ("us-east-1", "US-VA");
      ("us-east-2", "US-MIDW-MISO"); ("eu-west-1", "IE"); ("eu-central-1", "DE");
      ("ap-southeast-1", "SG"); ("ap-northeast-1", "JP") ].

Definition _get_electricity_maps_intensity
  (self : CarbonIntensityService) (net : network) (location : string) : option float :=
  match zone_mapping !! location with
  | None => None
  | Some zone =>
      if negb (String.eqb zone "") then
        match electricity_maps_latest net (default "" (electricity_maps_token self)) zone with
        | Value v => Some v
        | Miss => None
        end
      else None
  end.

Definition _authenticate_watt_time
  (self : CarbonIntensityService) (net : network) : option string :=
  match watt_time_username self, watt_time_password self with
  | Some username, Some password =>
      if negb (String.eqb username "") && negb (String.eqb password "")
      then watt_time_login net username password
      else None
  | _, _ => None
  end.

Definition region_mapping : gmap string string :=
  list_to_map
    [ ("us-west-1", "CAISO_NORTH"); ("us-west-2", "PACW");
      ("us-east-1", "PJM_DC"); ("us-east-2", "MISO_IN") ].

Definition with_watt_time_token
  (self : CarbonIntensityService) (token : option string) : CarbonIntensityService :=
  {| electricity_maps_token := electricity_maps_token self;
     watt_time_username := watt_time_username self;
     watt_time_password := watt_time_password self;
     watt_time_token := token |}.

(** Returns the value and the service, whose cached token the call may set. *)
Definition _get_watt_time_intensity
  (self : CarbonIntensityService) (net : network) (location : string)
  : option float * CarbonIntensityService :=
  let self :=
    if negb (set_and_nonempty (watt_time_token self))
    then with_watt_time_token self (_authenticate_watt_time self net)
    else self in
  if negb (set_and_nonempty (watt_time_token self)) then (None, self)
  else
    match region_mapping !! location with
    | None => (None, self)
    | Some region =>
        match watt_time_index net (default "" (watt_time_token self)) region with
        | Value moer_lbs_mwh =>
            let moer_g_kwh := fdiv (fmul moer_lbs_mwh (literal 453592 1000)) (of_Z 1000) in
            (Some moer_g_kwh, self)
        | Miss => (None, self)
        end
    end.

Definition _get_fallback_intensity (location : string) : Z :=
  default (default 0 (regional_fallbacks !! "default")) (regional_fallbacks !! location).

(** [if intensity:] for an optional float. *)
Definition usable (intensity : option float) : bool :=
  match intensity with
  | Some v => float_truthy v
  | None => false
  end.

(** [get_carbon_intensity]: the value is a provider's float or an integer of
    the fallback table; the service comes back with the WattTime token it
    may have cached.  A [location] that is not a string has no [lower]: the
    [AttributeError] is caught and the default of the table returned. *)
Definition get_carbon_intensity
  (self : CarbonIntensityService) (net : network) (location : json)
  : num * CarbonIntensityService :=
  match location with
  | JStr location =>
      let normalized_location := _normalize_location location in
      let from_maps :=
        if set_and_nonempty (electricity_maps_token self)
        then _get_electricity_maps_intensity self net normalized_location
        else None in
      if usable from_maps then (Float (default fzero from_maps), self)
      else
        let '(from_watt, self) :=
          if startswith normalized_location "us-" && set_and_nonempty (watt_time_username self)
          then _get_watt_time_intensity self net normalized_location
          else (None, self) in
        if usable from_watt then (Float (default fzero from_watt), self)
        else (Int (_get_fallback_intensity normalized_location), self)
  | _ => (Int (default 400 (regional_fallbacks !! "default")), self)
  end.

(** [x > 0] for an integer or a float. *)
Definition positive_num (n : num) : bool :=
  match n with
  | Int z => 0 <? z
  | Float f => flt fzero f
  end.

Record connection_test := {
  test_electricity_maps : bool;
  test_watt_time : bool;
  test_fallback : bool
}.

(** [is not None] for an optional value. *)
Definition is_not_none {A} (o : option A) : bool :=
  match o with Some _ => true | None => false end.

Definition test_connection (self : CarbonIntensityService) (net : network) : connection_test :=
  {| test_electricity_maps :=
       if set_and_nonempty (electricity_maps_token self)
       then is_not_none (_get_electricity_maps_intensity self net "us-west-1")
       else false;
     test_watt_time :=
       if set_and_nonempty (watt_time_username self)
          && set_and_nonempty (watt_time_password self)
       then is_not_none (_authenticate_watt_time self net)
       else false;
     test_fallback := true |}.

(** [get_regional_averages] returns a copy of the table. *)
Definition get_regional_averages : gmap string Z := regional_fallbacks.

Record daily_variation := {
  base_intensity : Z;
  morning_peak : float;
  midday_low : float;
  evening_peak : float;
  night_low : float
}.

(** [n * x] for an [int] and a [float]. *)
Definition int_times (n : Z) (x : float) : result float :=
  let* f := float_of_int n in Ok (fmul f x).

(** The location is looked up as it is given, without normalization. *)
Definition estimate_daily_variation (location : string) : result daily_variation :=
  let base_intensity := _get_fallback_intensity location in
  let* morning_peak := int_times base_intensity (literal 12 10) in
  let* midday_low := int_times base_intensity (literal 8 10) in
  let* evening_peak := int_times base_intensity (literal 13 10) in
  let* night_low := int_times base_intensity (literal 9 10) in
  Ok {| base_intensity := base_intensity; morning_peak := morning_peak;
        midday_low := midday_low; evening_peak := evening_peak; night_low := night_low |}.



End carbon_intensity.

(** ** utils.py *)

Module utils.
Import Py.

Section validator.

(** [datetime.fromisoformat]: [true] when the text parses, [false] when it
    raises [ValueError].  The formats it accepts depend on the interpreter's
    version, so the parser is a parameter. *)
Variable fromisoformat : string -> bool.

(** [field in data]: a key of a dict, a substring of a string, a member of a
    list; other values are not containers. *)
Definition has_field (field : string) (data : json) : result bool :=
  match data with
  | JObj m => Ok (match m !! field with Some _ => true | None => false end)
  | JStr s => Ok (contains field s)
  | JArr l => Ok (existsb (fun j => match j with JStr s => String.eqb s field | _ => false end) l)
  | _ => Raise (TypeError ("argument of type '" +:+ Json.type_name data +:+ "' is not iterable"))
  end.

(** [data[field]] once [field in data] held. *)
Definition get_field (field : string) (data : json) : result json :=
  match data with
  | JObj m =>
      match m !! field with
      | Some v => Ok v
      | None => Raise (KeyError ("'" +:+ field +:+ "'"))
      end
  | JStr _ => Raise (TypeError "string indices must be integers, not 'str'")
  | JArr _ => Raise (TypeError "list indices must be integers or slices, not str")
  | _ => Raise (TypeError ("'" +:+ Json.type_name data +:+ "' object is not subscriptable"))
  end.

Definition required_fields : list string := ["model"; "input_tokens"; "output_tokens"].

(** The loop over [required_fields]: the first absent one is reported. *)
Fixpoint check_required (fields : list string) (data : json) : result (option string) :=
  match fields with
  | [] => Ok None
  | field :: rest =>
      let* present := has_field field data in
      if negb present then Ok (Some ("Missing required field: " +:+ field))
      else check_required rest data
  end.

(** [not isinstance(tokens, int) or tokens < 0]. *)
Definition not_a_count (tokens : json) : bool :=
  match Json.as_int tokens with
  | Some z => z <? 0
  | None => true
  end.

(** [tokens > 1_000_000], for a value that is an [int]. *)
Definition above_limit (tokens : json) : bool :=
  match Json.as_int tokens with
  | Some z => 1000000 <? z
  | None => false
  end.

Definition check_timestamp (data : json) : result (option string) :=
  let* present := has_field "timestamp" data in
  if present then
    let* timestamp := get_field "timestamp" data in
    if Json.truthy timestamp && negb (Json.is_str timestamp)
    then Ok (Some "timestamp must be a string in ISO format")
    else
      match timestamp with
      | JStr text =>
          if Json.truthy timestamp && negb (fromisoformat (replace_char "Z" "+00:00" text))
          then Ok (Some "timestamp must be a valid ISO format string")
          else Ok None
      | _ => Ok None
      end
  else Ok None.

Definition check_location (data : json) : result (option string) :=
  let* present := has_field "location" data in
  if present then
    let* location := get_field "location" data in
    if Json.truthy location &&
       match location with
       | JStr text => String.eqb (strip text) ""
       | _ => true
       end
    then Ok (Some "location must be a non-empty string")
    else Ok None
  else Ok None.

(** [Ok None] when the data is valid, [Ok (Some message)] when a rule is
    violated, [Raise] when the data is not a dict and an access fails. *)
Definition validate_request_data (data : json) : result (option string) :=
  let* missing := check_required required_fields data in
  match missing with
  | Some message => Ok (Some message)
  | None =>
      let* model := get_field "model" data in
      if match model with
         | JStr text => String.eqb (strip text) ""
         | _ => true
         end
      then Ok (Some "Model must be a non-empty string")
      else
        let* input_tokens := get_field "input_tokens" data in
        let* output_tokens := get_field "output_tokens" data in
        if not_a_count input_tokens
        then Ok (Some "input_tokens must be a non-negative integer")
        else if not_a_count output_tokens
        then Ok (Some "output_tokens must be a non-negative integer")
        else if above_limit input_tokens
        then Ok (Some "input_tokens exceeds reasonable limit (1M)")
        else if above_limit output_tokens
        then Ok (Some "output_tokens exceeds reasonable limit (1M)")
        else
          let* bad_timestamp := check_timestamp data in
          match bad_timestamp with
          | Some message => Ok (Some message)
          | None => check_location data
          end
  end.

End validator.

(** The values of [additional_equivalents]: the integer 0 when there is no
    CO2, rounded floats otherwise. *)
Record equivalents := {
  phone_charges : num;
  miles_driven : num;
  led_hours : num;
  laptop_hours : num
}.

Definition calculate_additional_equivalents (co2_grams : float) : equivalents :=
  if fle co2_grams fzero then
    {| phone_charges := Int 0; miles_driven := Int 0; led_hours := Int 0; laptop_hours := Int 0 |}
  else
    let PHONE_CHARGE_CO2 := of_Z 8 in
    let CAR_CO2_PER_MILE := of_Z 411 in
    let LED_CO2_PER_HOUR := literal 5 10 in
    let LAPTOP_CO2_PER_HOUR := of_Z 20 in
    {| phone_charges := Float (round_ndigits (fdiv co2_grams PHONE_CHARGE_CO2) 2);
       miles_driven := Float (round_ndigits (fdiv co2_grams CAR_CO2_PER_MILE) 3);
       led_hours := Float (round_ndigits (fdiv co2_grams LED_CO2_PER_HOUR) 1);
       laptop_hours := Float (round_ndigits (fdiv co2_grams LAPTOP_CO2_PER_HOUR) 2) |}.

Definition generate_tree_equivalent_text (tree_equivalent : float) : result string :=
  if fle tree_equivalent fzero then
    Ok "negligible environmental impact"
  else if flt tree_equivalent (literal 1 100) then
    Ok "less than 1% of what a tree absorbs daily"
  else if flt tree_equivalent (literal 1 10) then
    let* percent := round_int (fmul tree_equivalent (of_Z 100)) in
    Ok (str_of_int percent +:+ "% of what a tree absorbs daily")
  else if flt tree_equivalent (of_Z 1) then
    Ok ("same CO2 as " +:+ format_1f tree_equivalent +:+ " of a tree absorbs daily")
  else if flt tree_equivalent (of_Z 2) then
    Ok ("same CO2 as " +:+ format_1f tree_equivalent +:+ " tree absorbs daily")
  else
    Ok ("same CO2 as " +:+ format_1f tree_equivalent +:+ " trees absorb daily").

(** The data [format_environmental_response] reads, each key optional: the
    four measures are numbers, the three context fields any JSON value. *)
Record impact_data := {
  data_energy_wh : option num;
  data_co2_emissions_g : option num;
  data_carbon_intensity_g_kwh : option num;
  data_tree_equivalent : option num;
  data_source : option json;
  data_location : option json;
  data_timestamp : option json
}.

Record ImpactResult := {
  energy_wh : float;
  co2_emissions_g : float;
  carbon_intensity_g_kwh : float;
  tree_equivalent : float;
  equivalent_text : string;
  source : json;
  location : json;
  timestamp : json;
  additional_equivalents : equivalents
}.

(** What the formatter returns: the response, or the fixed payload of its
    [except] branch (all measures 0, source "error"). *)
Inductive formatted :=
  | Formatted (r : ImpactResult)
  | FormatError.

(** [now] is the text of [datetime.now().isoformat()] at the call. *)
Definition format_environmental_response (now : string) (data : impact_data) : formatted :=
  match
    (let* energy_wh := to_float (default (Int 0) (data_energy_wh data)) in
     let* co2_emissions_g := to_float (default (Int 0) (data_co2_emissions_g data)) in
     let* carbon_intensity_g_kwh := to_float (default (Int 0) (data_carbon_intensity_g_kwh data)) in
     let* tree_equivalent := to_float (default (Int 0) (data_tree_equivalent data)) in
     let* equivalent_text := generate_tree_equivalent_text tree_equivalent in
     Ok {| energy_wh := round_ndigits energy_wh 6;
           co2_emissions_g := round_ndigits co2_emissions_g 6;
           carbon_intensity_g_kwh := round_ndigits carbon_intensity_g_kwh 2;
           tree_equivalent := round_ndigits tree_equivalent 3;
           equivalent_text := equivalent_text;
           source := default (JStr "ecologits_methodology") (data_source data);
           location := default (JStr "us-west-1") (data_location data);
           timestamp := default (JStr now) (data_timestamp data);
           additional_equivalents := calculate_additional_equivalents co2_emissions_g |})
  with
  | Ok response => Formatted response
  | Raise _ => FormatError
  end.

Record efficiency_rating := {
  rating : string;
  color : string;
  description : string;
  level : string
}.

Definition calculate_efficiency_rating (co2_per_token : float) : efficiency_rating :=
  if fle co2_per_token (literal 1 10000) then
    {| rating := "excellent"; color := "#22c55e";
       description := "Highly efficient usage"; level := "A+" |}
  else if fle co2_per_token (literal 5 10000) then
    {| rating := "good"; color := "#84cc16";
       description := "Good efficiency"; level := "A" |}
  else if fle co2_per_token (literal 1 1000) then
    {| rating := "average"; color := "#eab308";
       description := "Average efficiency"; level := "B" |}
  else if fle co2_per_token (literal 2 1000) then
    {| rating := "poor"; color := "#f97316";
       description := "Below average efficiency"; level := "C" |}
  else
    {| rating := "very_poor"; color := "#ef4444";
       description := "Low efficiency"; level := "D" |}.

(** [x > 0] for an [int] or a [float]. *)
Definition num_positive (n : num) : bool :=
  match n with
  | Int z => 0 <? z
  | Float f => flt fzero f
  end.

(** [n * x] for a number and a [float]. *)
Definition num_times (n : num) (x : float) : result float :=
  let* f := to_float n in Ok (fmul f x).

(** The sentence [generate_environmental_insight] appends for a comparison:
    [comparison_data] is [None] or a dict of numbers. *)
Definition comparison_sentence (efficiency : float) (comparison_data : option (gmap string num))
  : result string :=
  match comparison_data with
  | None => Ok ""
  | Some data =>
      match map_to_list data with
      | [] => Ok ""
      | _ =>
          let avg_efficiency := default (Int 0) (data !! "average_efficiency") in
          if num_positive avg_efficiency then
            let* low := num_times avg_efficiency (literal 8 10) in
            if flt efficiency low
            then Ok " This session was more efficient than your average."
            else
              let* high := num_times avg_efficiency (literal 12 10) in
              if flt high efficiency
              then Ok " This session was less efficient than your average."
              else Ok " This session efficiency is typical for you."
          else Ok ""
      end
  end.

Definition generate_environmental_insight
  (co2_grams : float) (output_tokens : Z) (comparison_data : option (gmap string num))
  : outcome string :=
  if output_tokens <=? 0 then Returns "No output tokens generated."
  else
    let+ efficiency := float_div_int co2_grams output_tokens in
    let rating := calculate_efficiency_rating efficiency in
    let insight :=
      "Environmental efficiency: " +:+ level rating +:+ " (" +:+ description rating +:+ ")." in
    let+ comparison := lift (comparison_sentence efficiency comparison_data) in
    Returns (insight +:+ comparison).


Definition valid_locations : list string :=
  [ "us-west-1"; "us-west-2"; "us-east-1"; "us-east-2";
    "eu-west-1"; "eu-central-1"; "ap-southeast-1"; "ap-northeast-1";
    "california"; "oregon"; "virginia"; "ohio"; "ireland";
    "germany"; "singapore"; "japan" ].

Definition validate_location (location : json) : string :=
  match location with
  | JStr location =>
      let location := lower (strip location) in
      if existsb (String.eqb location) valid_locations then location
      else "us-west-1"
  | _ => "us-west-1"
  end.

End utils.

(** ** app.py *)

Module app.
Import Py.

(** What a request handler reads from outside the process: the interpreter's
    ISO parser, the two clock readings of one call, and the providers. *)
Record world := {
  fromisoformat : string -> bool;
  utc_now : string;      (* datetime.now(timezone.utc).isoformat() *)
  local_now : string;    (* datetime.now().isoformat() *)
  net : carbon_intensity.network
}.

(** The module's mutable globals: the result cache and the carbon service. *)
Record state := {
  cache_dict : odict utils.formatted;
  carbon_service : carbon_intensity.CarbonIntensityService
}.

(** A JSON body a handler builds: a formatted result or [{"error": msg}]. *)
Inductive body :=
  | ImpactBody (result : utils.formatted)
  | ErrorBody (msg : string).

(** What a view function returns: [jsonify(...)] alone, which is a [Response]
    object, or the pair of one with a status code. *)
Inductive view_return :=
  | Response (b : body)
  | WithStatus (b : body) (status : Z).

Definition get_cached_result (cache : odict utils.formatted) (cache_key : string)
  : option utils.formatted :=
  oget cache_key cache.

(** [cache_result]: store, then drop the first 200 keys once the size
    exceeds 1000.  The [ttl] argument is not used. *)
Definition cache_result {V} (cache : odict V) (cache_key : string) (result : V) : odict V :=
  let cache := oset cache_key result cache in
  if (1000 <? length cache)%nat then
    let keys_to_remove := firstn 200 (okeys cache) in
    fold_left (fun cache key => odel key cache) keys_to_remove cache
  else cache.

(** The uses that need a string or an integer raise on any other value;
    after validation the model is a string and the counts are integers. *)
Definition expect_str (j : json) : result string :=
  match j with
  | JStr s => Ok s
  | _ => Raise (TypeError ("unhashable or unsupported type: '" +:+ Json.type_name j +:+ "'"))
  end.

Definition expect_int (j : json) : result Z :=
  match Json.as_int j with
  | Some z => Ok z
  | None => Raise (TypeError ("unsupported operand type: '" +:+ Json.type_name j +:+ "'"))
  end.

(** One [{...}] of an f-string; values whose text the model does not give
    (see [Json.str]) do not pass the validator. *)
Definition interpolate (j : json) : result string :=
  match Json.str j with
  | Some s => Ok s
  | None => Raise (ValueError "text of this value is not modelled")
  end.

(** [data.get(key, fallback)] on a dict. *)
Definition get_or (key : string) (fallback : json) (data : json) : result json :=
  match data with
  | JObj m => Ok (default fallback (m !! key))
  | _ => Raise (TypeError ("'" +:+ Json.type_name data +:+ "' object has no attribute 'get'"))
  end.

Definition internal_error (st : state) : view_return * state :=
  (WithStatus (ErrorBody "Internal server error") 500, st).

(** What [calculate_impact] reads from a validated body before it computes. *)
Record parsed := {
  p_model : string;
  p_input_tokens : Z;
  p_output_tokens : Z;
  p_timestamp : json;
  p_location : json;
  p_cache_key : string
}.

Definition read_request (w : world) (data : json) : result parsed :=
  let* model := utils.get_field "model" data in
  let* input_tokens := utils.get_field "input_tokens" data in
  let* output_tokens := utils.get_field "output_tokens" data in
  let* timestamp := get_or "timestamp" (JStr (utc_now w)) data in
  let* location := get_or "location" (JStr "us-west-1") data in
  let* model_text := interpolate model in
  let* input_text := interpolate input_tokens in
  let* output_text := interpolate output_tokens in
  let* location_text := interpolate location in
  let cache_key :=
    "impact:" +:+ model_text +:+ ":" +:+ input_text +:+ ":" +:+ output_text
      +:+ ":" +:+ location_text in
  let* model := expect_str model in
  let* input_tokens := expect_int input_tokens in
  let* output_tokens := expect_int output_tokens in
  Ok {| p_model := model; p_input_tokens := input_tokens; p_output_tokens := output_tokens;
        p_timestamp := timestamp; p_location := location; p_cache_key := cache_key |}.

(** The computation of [calculate_impact] after a cache miss. *)
Definition compute_impact (w : world) (st : state) (p : parsed) : view_return * state :=
  match ecologits_calculator.calculate_energy_consumption
          (p_model p) (p_input_tokens p) (p_output_tokens p) with
  | Raise _ => internal_error st
  | Ok energy_wh =>
      let '(carbon_intensity_g_kwh, service) :=
        carbon_intensity.get_carbon_intensity (carbon_service st) (net w) (p_location p) in
      let st := {| cache_dict := cache_dict st; carbon_service := service |} in
      match to_float carbon_intensity_g_kwh with
      | Raise _ => internal_error st
      | Ok intensity =>
          let co2_emissions_g := fmul (fdiv energy_wh (of_Z 1000)) intensity in
          let tree_equivalent := fdiv co2_emissions_g (of_Z 50) in
          let result :=
            utils.format_environmental_response (local_now w)
              {| utils.data_energy_wh := Some (Float energy_wh);
                 utils.data_co2_emissions_g := Some (Float co2_emissions_g);
                 utils.data_carbon_intensity_g_kwh := Some carbon_intensity_g_kwh;
                 utils.data_tree_equivalent := Some (Float tree_equivalent);
                 utils.data_source := Some (JStr "custom_ecologits_inspired");
                 utils.data_location := Some (p_location p);
                 utils.data_timestamp := Some (p_timestamp p) |} in
          let st := {| cache_dict := cache_result (cache_dict st) (p_cache_key p) result;
                       carbon_service := carbon_service st |} in
          (Response (ImpactBody result), st)
      end
  end.

(** [calculate_impact] on the body [request.get_json()] returned. *)
Definition calculate_impact (w : world) (st : state) (data : json) : view_return * state :=
  if negb (Json.truthy data) then
    (WithStatus (ErrorBody "No JSON data provided") 400, st)
  else
    match utils.validate_request_data (fromisoformat w) data with
    | Raise _ => internal_error st
    | Ok (Some validation_error) => (WithStatus (ErrorBody validation_error) 400, st)
    | Ok None =>
        match read_request w data with
        | Raise _ => internal_error st
        | Ok p =>
            match get_cached_result (cache_dict st) (p_cache_key p) with
            | Some cached_result => (Response (ImpactBody cached_result), st)
            | None => compute_impact w st p
            end
        end
    end.

(** [response[1]]: only the pair form can be subscripted. *)
Definition status_of (response : view_return) : result Z :=
  match response with
  | WithStatus _ status => Ok status
  | Response _ => Raise (TypeError "'Response' object is not subscriptable")
  end.

(** [response[0].get_json()], reached only after [response[1]] succeeded. *)
Definition body_of (response : view_return) : body :=
  match response with
  | WithStatus b _ => b
  | Response b => b
  end.

(** The body of the loop of [batch_calculate] for the record at index [i]:
    the entry appended to [results], and the state afterwards. *)
Definition process_record (w : world) (st : state) (i : nat) (record : json)
  : body * state :=
  let index := str_of_int (Z.of_nat i) in
  match utils.validate_request_data (fromisoformat w) record with
  | Raise e => (ErrorBody ("Record " +:+ index +:+ ": " +:+ exn_str e), st)
  | Ok (Some validation_error) =>
      (ErrorBody ("Record " +:+ index +:+ ": " +:+ validation_error), st)
  | Ok None =>
      let '(response, st) := calculate_impact w st record in
      match status_of response with
      | Raise e => (ErrorBody ("Record " +:+ index +:+ ": " +:+ exn_str e), st)
      | Ok status =>
          if status =? 200 then (body_of response, st)
          else (ErrorBody ("Calculation failed for record " +:+ index), st)
      end
  end.

(** [for i, record in enumerate(records)], from index [i] on; [w j] is what
    the handler reads from outside while it processes record [j]. *)
Fixpoint process_records (w : nat -> world) (st : state) (i : nat) (records : list json)
  : list body * state :=
  match records with
  | [] => ([], st)
  | record :: rest =>
      let '(entry, st) := process_record (w i) st i record in
      let '(entries, st) := process_records w st (S i) rest in
      (entry :: entries, st)
  end.

(** What [batch_calculate] returns: [{"results": [...]}] or an error with
    its status. *)
Inductive batch_return :=
  | Results (results : list body)
  | BatchError (msg : string) (status : Z).

(** [batch_calculate] on the list under the body's "records" key; [None]
    when the body is empty or has no such key. *)
Definition batch_calculate (w : nat -> world) (st : state) (records : option (list json))
  : batch_return * state :=
  match records with
  | None => (BatchError "No records provided" 400, st)
  | Some records =>
      if (1000 <? length records)%nat then (BatchError "Batch size too large (max 1000)" 400, st)
      else
        let '(results, st) := process_records w st 0 records in
        (Results results, st)
  end.

(** [get_cache_stats]: the cache's size and the maximum it reports. *)
Definition get_cache_stats (st : state) : nat * nat :=
  (length (cache_dict st), 1000%nat).

(** The names bound in the module [app.py]: its imports, globals and
    functions. *)
Definition module_names : list string :=
  [ "os"; "logging"; "datetime"; "timezone"; "lru_cache"; "Dict"; "Any"; "Optional";
    "Flask"; "request"; "jsonify"; "g"; "load_dotenv"; "EcoLogitsCalculator";
    "CarbonIntensityService"; "format_environmental_response"; "validate_request_data";
    "logger"; "app"; "calculator"; "carbon_service"; "cache_dict"; "before_request";
    "after_request"; "health_check"; "calculate_impact"; "batch_calculate";
    "get_supported_models"; "get_methodology"; "get_cache_stats"; "get_cached_result";
    "cache_result"; "not_found"; "internal_error" ].

(** Reading a global name: a name the module does not bind raises. *)
Definition read_global (name : string) : outcome unit :=
  if existsb (String.eqb name) module_names then Returns tt
  else Raises (NameError ("name '" +:+ name +:+ "' is not defined")).

(** What [health_check] answers: the "healthy" body with the two self-tests,
    or the "unhealthy" body with the error's text and status 500. *)
Inductive health :=
  | Healthy (calculator_test : ecologits_calculator.calculation_test)
            (carbon_test : carbon_intensity.connection_test)
  | Unhealthy (error : string) (status : Z).

Definition health_check (w : world) (st : state) : health :=
  match
    (let test_result := ecologits_calculator.test_calculation in
     let carbon_test := carbon_intensity.test_connection (carbon_service st) (net w) in
     let+ _ := read_global "redis_client" in
     Returns (Healthy test_result carbon_test))
  with
  | Returns response => response
  | Raises e => Unhealthy (raised_str e) 500
  end.

End app.

(** ** Worked examples *)

Module Examples.
Import Py app.

Definition no_providers : carbon_intensity.CarbonIntensityService :=
  {| carbon_intensity.electricity_maps_token := None;
     carbon_intensity.watt_time_username := None;
     carbon_intensity.watt_time_password := None;
     carbon_intensity.watt_time_token := None |}.

Definition silent_network : carbon_intensity.network :=
  {| carbon_intensity.electricity_maps_latest := fun _ _ => carbon_intensity.Miss;
     carbon_intensity.watt_time_login := fun _ _ => None;
     carbon_intensity.watt_time_index := fun _ _ => carbon_intensity.Miss |}.

Definition example_world : world :=
  {| fromisoformat := fun text => String.eqb text "2025-06-25T10:30:00+00:00";
     utc_now := "2025-06-25T10:30:00+00:00";
     local_now := "2025-06-25T10:30:00";
     net := silent_network |}.

(** The state of a freshly started service. *)
Definition initial_state : state :=
  {| cache_dict := []; carbon_service := no_providers |}.

(** The request of the specification's end-to-end example. *)
Definition example_request : json :=
  JObj (list_to_map
          [ ("model", JStr "claude-3-5-sonnet-20241022"); ("input_tokens", JInt 150);
            ("output_tokens", JInt 500); ("timestamp", JStr "2025-06-25T10:30:00Z");
            ("location", JStr "us-west-1") ]).

(** A record with no "model". *)
Definition record_without_model : json :=
  JObj (list_to_map [ ("input_tokens", JInt 150); ("output_tokens", JInt 500) ]).

End Examples.

(** ** Definitions the statements use *)

Module FloatSpec.
Import Py.

(** A float that is not [nan] and carries the sign [s]. *)
Definition signed_as (s : bool) (f : float) : Prop :=
  match f with
  | S754_zero s' | S754_infinity s' | S754_finite s' _ _ => s' = s
  | S754_nan => False
  end.

Definition is_finite (f : float) : Prop :=
  match f with
  | S754_zero _ | S754_finite _ _ _ => True
  | _ => False
  end.

(** In a float: a finite one has a mantissa of at most 53 bits. *)
Definition bounded_mantissa (f : float) : Prop :=
  match f with
  | S754_finite _ m _ => Zpos (digits2_pos m) <= 53
  | _ => True
  end.

End FloatSpec.

Module CalculatorSpec.
Import Py ecologits_calculator.

(** No profile name of the table matches the lower-cased id in either direction. *)
Definition no_fuzzy_match (model : string) : Prop :=
  Forall (fun entry => fuzzy_match (lower model) (fst entry) = false) model_profiles.

(** The resolution order in the specification's words: each rule applies
    only when the rules before it do not. *)
Inductive resolves (model : string) : ModelEnergyProfile -> Prop :=
  | by_exact_match profile :
      oget model model_profiles = Some profile ->
      resolves model profile
  | by_fuzzy_match before name profile after :
      oget model model_profiles = None ->
      model_profiles = (before ++ (name, profile) :: after)%list ->
      fuzzy_match (lower model) name = true ->
      Forall (fun entry => fuzzy_match (lower model) (fst entry) = false) before ->
      resolves model profile
  | by_haiku_family :
      oget model model_profiles = None -> no_fuzzy_match model ->
      contains "haiku" (lower model) = true ->
      resolves model _get_haiku_profile
  | by_opus_family :
      oget model model_profiles = None -> no_fuzzy_match model ->
      contains "haiku" (lower model) = false ->
      contains "opus" (lower model) = true ->
      resolves model _get_opus_profile
  | by_sonnet_family :
      oget model model_profiles = None -> no_fuzzy_match model ->
      contains "haiku" (lower model) = false ->
      contains "opus" (lower model) = false ->
      contains "sonnet" (lower model) || contains "claude" (lower model) = true ->
      resolves model _get_sonnet_profile
  | by_default :
      oget model model_profiles = None -> no_fuzzy_match model ->
      contains "haiku" (lower model) = false ->
      contains "opus" (lower model) = false ->
      contains "sonnet" (lower model) || contains "claude" (lower model) = false ->
      resolves model _get_default_profile.

End CalculatorSpec.

Module CarbonSpec.
Import Py carbon_intensity.

(** The canonical region codes: the keys of [aws_regions]. *)
Definition canonical_regions : list string :=
  [ "us-west-1"; "us-west-2"; "us-east-1"; "us-east-2";
    "eu-west-1"; "eu-central-1"; "ap-southeast-1"; "ap-northeast-1" ].

(** Every provider is unconfigured or answers no query. *)
Definition providers_silent (self : CarbonIntensityService) (net : network) : Prop :=
  (set_and_nonempty (electricity_maps_token self) = false \/
   forall token zone, electricity_maps_latest net token zone = Miss) /\
  (set_and_nonempty (watt_time_username self) = false \/
   forall token region, watt_time_index net token region = Miss).

End CarbonSpec.

Module ValidatorSpec.
Import Py utils.

(** One rule of the validator as the specification lists them: when it is
    violated, and the message that reports it. *)
Record rule := {
  violated : gmap string json -> bool;
  message : string
}.

Definition missing (field : string) (record : gmap string json) : bool :=
  match record !! field with Some _ => false | None => true end.

(** Not a string, or a string that is empty once stripped. *)
Definition blank_or_not_str (j : json) : bool :=
  match j with
  | JStr text => String.eqb (strip text) ""
  | _ => true
  end.

(** The rules in the order the validator applies them.  A timestamp or a
    location is examined only when the key is present with a true value. *)
Definition rules (fromisoformat : string -> bool) : list rule :=
  [ {| violated := missing "model";
       message := "Missing required field: model" |};
    {| violated := missing "input_tokens";
       message := "Missing required field: input_tokens" |};
    {| violated := missing "output_tokens";
       message := "Missing required field: output_tokens" |};
    {| violated := fun record => from_option blank_or_not_str true (record !! "model");
       message := "Model must be a non-empty string" |};
    {| violated := fun record => from_option not_a_count true (record !! "input_tokens");
       message := "input_tokens must be a non-negative integer" |};
    {| violated := fun record => from_option not_a_count true (record !! "output_tokens");
       message := "output_tokens must be a non-negative integer" |};
    {| violated := fun record => from_option above_limit false (record !! "input_tokens");
       message := "input_tokens exceeds reasonable limit (1M)" |};
    {| violated := fun record => from_option above_limit false (record !! "output_tokens");
       message := "output_tokens exceeds reasonable limit (1M)" |};
    {| violated := fun record =>
         from_option (fun t => Json.truthy t && negb (Json.is_str t)) false
                     (record !! "timestamp");
       message := "timestamp must be a string in ISO format" |};
    {| violated := fun record =>
         match record !! "timestamp" with
         | Some (JStr text) =>
             negb (String.eqb text "")
             && negb (fromisoformat (replace_char "Z" "+00:00" text))
         | _ => false
         end;
       message := "timestamp must be a valid ISO format string" |};
    {| violated := fun record =>
         from_option (fun l => Json.truthy l && blank_or_not_str l) false
                     (record !! "location");
       message := "location must be a non-empty string" |} ].

(** The message of the first violated rule, if any. *)
Definition first_violation (fromisoformat : string -> bool) (record : gmap string json)
  : option string :=
  message <$> List.find (fun r => violated r record) (rules fromisoformat).

(** "Not a non-empty string", in the specification's words. *)
Definition not_nonempty_str (j : json) : bool :=
  match j with
  | JStr text => String.eqb text ""
  | _ => true
  end.

End ValidatorSpec.

Module FormatterSpec.
Import Py utils.

(** The measures the formatter read, converted to floats. *)
Record measures := {
  m_energy_wh : float;
  m_co2_emissions_g : float;
  m_carbon_intensity_g_kwh : float;
  m_tree_equivalent : float
}.

Definition read_measures (data : impact_data) : result measures :=
  let* e := to_float (default (Int 0) (data_energy_wh data)) in
  let* c := to_float (default (Int 0) (data_co2_emissions_g data)) in
  let* i := to_float (default (Int 0) (data_carbon_intensity_g_kwh data)) in
  let* t := to_float (default (Int 0) (data_tree_equivalent data)) in
  Ok {| m_energy_wh := e; m_co2_emissions_g := c;
        m_carbon_intensity_g_kwh := i; m_tree_equivalent := t |}.

(** The measures of the end-to-end example: 0.175 Wh at 350 gCO2/kWh. *)
Definition example_data : impact_data :=
  {| data_energy_wh := Some (Float (S754_finite false 6305039478318695 (-55)));
     data_co2_emissions_g := Some (Float (S754_finite false 8827055269646173 (-57)));
     data_carbon_intensity_g_kwh := Some (Int 350);
     data_tree_equivalent := Some (Float (S754_finite false 5649315372573551 (-62)));
     data_source := Some (JStr "custom_ecologits_inspired");
     data_location := Some (JStr "us-west-1");
     data_timestamp := Some (JStr "2025-06-25T10:30:00Z") |}.

Definition example_result : ImpactResult :=
  {| energy_wh := S754_finite false 6305039478318694 (-55);
     co2_emissions_g := S754_finite false 8827055269646172 (-57);
     carbon_intensity_g_kwh := S754_finite false 6157265115545600 (-44);
     tree_equivalent := S754_finite false 4611686018427388 (-62);
     equivalent_text := "less than 1% of what a tree absorbs daily";
     source := JStr "custom_ecologits_inspired";
     location := JStr "us-west-1";
     timestamp := JStr "2025-06-25T10:30:00Z";
     additional_equivalents :=
       {| phone_charges := Float (S754_finite false 5764607523034235 (-59));
          miles_driven := Float (S754_zero false);
          led_hours := Float (S754_finite false 7205759403792794 (-56));
          laptop_hours := Float (S754_zero false) |} |}.

(** What of a response does not depend on the clock. *)
Definition clock_free (f : formatted)
  : option (float * float * float * float * string * equivalents * json * json) :=
  match f with
  | Formatted r =>
      Some (energy_wh r, co2_emissions_g r, carbon_intensity_g_kwh r, tree_equivalent r,
            equivalent_text r, additional_equivalents r, source r, location r)
  | FormatError => None
  end.

End FormatterSpec.

Module CacheSpec.
Import Py app.

(** The cache after a sequence of writes into an empty cache. *)
Definition after_writes {V} (writes : list (string * V)) : odict V :=
  fold_left (fun cache write => cache_result cache (fst write) (snd write)) writes [].

(** How many of the first [n] distinct keys have been evicted. *)
Definition evicted (n : nat) : nat :=
  if (n <=? 1000)%nat then 0%nat else (200 * ((n - 801) / 200))%nat.

End CacheSpec.

Module AppSpec.
Import Py app utils.

(** What the validator leaves of an optional location: absent, a false
    value, or a string. *)
Definition location_ok (o : option json) : Prop :=
  match o with
  | None => True
  | Some l => Json.truthy l = false \/ exists text, l = JStr text
  end.

Definition count_ok (j : json) : Prop :=
  exists z, Json.as_int j = Some z /\ 0 <= z <= 1000000.

(** The relation between the two fields of a result: there is a CO2 value
    whose 6-decimal rounding is [co2_emissions_g] and whose quotient by 50,
    rounded to 3 decimals, is [tree_equivalent]. *)
Definition tree_from_co2 (r : ImpactResult) : Prop :=
  exists co2,
    co2_emissions_g r = round_ndigits co2 6
    /\ tree_equivalent r = round_ndigits (fdiv co2 (of_Z 50)) 3.

(** A cached value is a result with that relation. *)
Definition coherent (f : formatted) : Prop :=
  match f with
  | Formatted r => tree_from_co2 r
  | FormatError => False
  end.

Definition cache_coherent (st : state) : Prop :=
  Forall coherent (map snd (cache_dict st)).

End AppSpec.

Module SessionSpec.
Import Py ecologits_calculator.

(** The constants of the three families. *)
Definition family_constants : list (float * float * float) :=
  [ constants _get_haiku_profile; constants _get_opus_profile; constants _get_sonnet_profile ].

(** The tokens of one session and of a list of sessions, absent counts being 0. *)
Definition session_tokens (s : session) : Z :=
  default 0 (session_input_tokens s) + default 0 (session_output_tokens s).

Definition token_sum (sessions : list session) : Z :=
  foldr (fun s total => session_tokens s + total) 0 sessions.

(** Both counts of a session are from 0 up to 2^53. *)
Definition counts_in_range (s : session) : Prop :=
  0 <= default 0 (session_input_tokens s) < 2 ^ 53
  /\ 0 <= default 0 (session_output_tokens s) < 2 ^ 53.

End SessionSpec.

Module RatingSpec.
Import Py utils.

(** The place of a rating in the scale: 0 for "A+", then "A", "B", "C", "D". *)
Definition grade (r : efficiency_rating) : nat :=
  if String.eqb (level r) "A+" then 0
  else if String.eqb (level r) "A" then 1
  else if String.eqb (level r) "B" then 2
  else if String.eqb (level r) "C" then 3
  else 4.

End RatingSpec.

Module ServiceSpec.
Import Py app Examples.

(** A later moment, with a parser that accepts every text. *)
Definition later_world : world :=
  {| fromisoformat := fun _ => true;
     utc_now := "2026-01-01T00:00:00+00:00";
     local_now := "2026-01-01T00:00:00";
     net := silent_network |}.

(** The example request with another timestamp. *)
Definition later_request : json :=
  JObj (list_to_map
          [ ("model", JStr "claude-3-5-sonnet-20241022"); ("input_tokens", JInt 150);
            ("output_tokens", JInt 500); ("timestamp", JStr "2026-01-01T00:00:00Z");
            ("location", JStr "us-west-1") ]).

(** The states the service can be in: it starts with an empty cache, and
    the two handlers that write to the cache take it from state to state. *)
Inductive reachable : state -> Prop :=
  | reachable_start service :
      reachable {| cache_dict := []; carbon_service := service |}
  | reachable_calculate_impact w st data :
      reachable st -> reachable (snd (calculate_impact w st data))
  | reachable_batch_calculate w st records :
      reachable st -> reachable (snd (batch_calculate w st records)).

End ServiceSpec.

(** * Proofs *)

Module PyFacts.
Import Py.

Lemma lower_char_idem c : lower_char (lower_char c) = lower_char c.
Proof. destruct c as [[] [] [] [] [] [] [] []]; reflexivity. Qed.

Lemma is_space_lower_char c : is_space (lower_char c) = is_space c.
Proof. destruct c as [[] [] [] [] [] [] [] []]; reflexivity. Qed.

Lemma lower_idem s : lower (lower s) = lower s.
Proof. induction s as [|c s IH]; simpl; [done|]. by rewrite lower_char_idem, IH. Qed.

Lemma lower_lstrip s : lower (lstrip s) = lstrip (lower s).
Proof.
  induction s as [|c s IH]; simpl; [done|].
  rewrite is_space_lower_char. by destruct (is_space c).
Qed.

Lemma lower_empty s : lower s = "" <-> s = "".
Proof. destruct s; simpl; split; congruence. Qed.

Lemma lower_rstrip s : lower (rstrip s) = rstrip (lower s).
Proof.
  induction s as [|c s IH]; simpl; [done|].
  rewrite <- IH, is_space_lower_char.
  destruct (rstrip s) as [|d r]; simpl; [by destruct (is_space c)|done].
Qed.

Lemma lower_strip s : lower (strip s) = strip (lower s).
Proof. unfold strip. by rewrite lower_lstrip, lower_rstrip. Qed.

Lemma lstrip_idem s : lstrip (lstrip s) = lstrip s.
Proof.
  induction s as [|c s IH]; simpl; [done|].
  destruct (is_space c) eqn:Hc; [done|]. simpl. by rewrite Hc.
Qed.

Lemma rstrip_idem s : rstrip (rstrip s) = rstrip s.
Proof.
  induction s as [|c s IH]; simpl; [done|].
  destruct (rstrip s) as [|d r] eqn:Hr.
  - destruct (is_space c) eqn:Hc; simpl; [done|]. by rewrite Hc.
  - change (rstrip (String c (String d r)) = String c (String d r)).
    cbn [rstrip]. cbn [rstrip] in IH. by rewrite IH.
Qed.

Lemma rstrip_lstrip s : rstrip (lstrip s) = lstrip (rstrip s).
Proof.
  induction s as [|c s IH]; simpl; [done|].
  destruct (is_space c) eqn:Hc.
  - rewrite IH. destruct (rstrip s) as [|d r]; simpl; by rewrite ?Hc.
  - cbn [rstrip]. destruct (rstrip s) as [|d r]; rewrite ?Hc; simpl; by rewrite Hc.
Qed.

Lemma strip_idem s : strip (strip s) = strip s.
Proof. unfold strip. by rewrite rstrip_lstrip, rstrip_idem, lstrip_idem. Qed.

(** Lower-casing then stripping yields a fixed point of both. *)
Lemma strip_lower_fixed s : strip (lower (strip (lower s))) = strip (lower s).
Proof. by rewrite lower_strip, lower_idem, strip_idem. Qed.

End PyFacts.

Module OdictFacts.
Import Py.

Lemma oget_In {V} (k : string) (v : V) (d : odict V) : oget k d = Some v -> In (k, v) d.
Proof.
  induction d as [|[k' v'] d IH]; simpl; [done|].
  destruct (String.eqb k k') eqn:Hk.
  - apply String.eqb_eq in Hk. intros [= ->]. left. by subst.
  - intros H. right. by apply IH.
Qed.

Lemma find_first {A} (f : A -> bool) (l : list A) (x : A) :
  List.find f l = Some x <->
  exists before after,
    l = (before ++ x :: after)%list /\ f x = true /\ Forall (fun y => f y = false) before.
Proof.
  split.
  - induction l as [|a l IH]; simpl; [done|].
    destruct (f a) eqn:Ha.
    + intros [= ->]. exists [], l. auto.
    + intros H. destruct (IH H) as (before & after & -> & Hx & Hb).
      exists (a :: before), after. auto.
  - intros (before & after & -> & Hx & Hb).
    induction Hb as [|a before Ha Hb IH]; simpl; [by rewrite Hx|by rewrite Ha].
Qed.

Lemma find_none_iff {A} (f : A -> bool) (l : list A) :
  List.find f l = None <-> Forall (fun y => f y = false) l.
Proof.
  induction l as [|a l IH]; simpl.
  - split; [constructor|done].
  - destruct (f a) eqn:Ha.
    + split; [done|]. intros H. inversion H; congruence.
    + rewrite IH. split; [by constructor|]. intros H. by inversion H.
Qed.

End OdictFacts.

Module FloatFacts.
Import Py FloatSpec.

Lemma shr_1_nonneg mrs : 0 <= shr_m mrs -> 0 <= shr_m (shr_1 mrs).
Proof. destruct mrs as [m r s]; destruct m as [|[p|p|]|[p|p|]]; simpl; lia. Qed.

Lemma iter_pos_invariant {A} (P : A -> Prop) (f : A -> A) :
  (forall x, P x -> P (f x)) -> forall n x, P x -> P (SpecFloat.iter_pos f n x).
Proof.
  intros Hf n. induction n as [n IH|n IH|]; intros x Hx; simpl; auto.
Qed.

Lemma shr_nonneg mrs e n : 0 <= shr_m mrs -> 0 <= shr_m (fst (shr mrs e n)).
Proof.
  intros H. unfold shr. destruct n; simpl; try done.
  by apply (iter_pos_invariant (fun mrs => 0 <= shr_m mrs)); [apply shr_1_nonneg|].
Qed.

Lemma shr_fexp_nonneg m e l : 0 <= m -> 0 <= shr_m (fst (shr_fexp prec emax m e l)).
Proof.
  intros H. unfold shr_fexp. apply shr_nonneg. by destruct l as [|[]].
Qed.

Lemma round_nearest_even_nonneg m l : 0 <= m -> 0 <= round_nearest_even m l.
Proof.
  intros H. unfold round_nearest_even. destruct l as [|[]]; try done; [|lia].
  destruct (Z.even m); lia.
Qed.

Lemma binary_round_aux_sign s m e l :
  0 <= m -> signed_as s (binary_round_aux prec emax s m e l).
Proof.
  intros H. unfold binary_round_aux.
  pose proof (shr_fexp_nonneg m e l H) as H1.
  destruct (shr_fexp prec emax m e l) as [mrs' e']. simpl in H1.
  pose proof (shr_fexp_nonneg _ e' loc_Exact
                (round_nearest_even_nonneg _ (loc_of_shr_record mrs') H1)) as H2.
  destruct (shr_fexp prec emax _ e' loc_Exact) as [mrs'' e'']. simpl in H2.
  destruct (shr_m mrs''); [done | | lia].
  by destruct (e'' <=? emax - prec).
Qed.

Lemma binary_round_sign s m e : signed_as s (binary_round prec emax s m e).
Proof.
  unfold binary_round. destruct (shl_align _ _ _) as [mz ez].
  by apply binary_round_aux_sign.
Qed.

Lemma of_Z_sign z : 0 <= z -> signed_as false (of_Z z).
Proof.
  intros H. unfold of_Z, binary_normalize. destruct z; [done | | lia].
  apply binary_round_sign.
Qed.

Lemma fmul_sign x y :
  signed_as false x -> signed_as false y -> is_finite x -> is_finite y ->
  signed_as false (fmul x y).
Proof.
  destruct x as [sx|sx| |sx mx ex], y as [sy|sy| |sy my ey]; simpl; try done;
    intros -> -> _ _; try done.
  by apply binary_round_aux_sign.
Qed.

Lemma fadd_sign x y :
  signed_as false x -> signed_as false y -> signed_as false (fadd x y).
Proof.
  destruct x as [sx|sx| |sx mx ex], y as [sy|sy| |sy my ey]; simpl; try done;
    intros -> ->; try done.
  unfold binary_normalize, cond_Zopp.
  destruct (shl_align mx ex _) as [mx' ex'], (shl_align my ey _) as [my' ey']; simpl.
  apply binary_round_sign.
Qed.

Lemma nonneg_of_sign x : signed_as false x -> fle fzero x = true.
Proof. destruct x as [s|s| |s m e]; simpl; try done; by intros ->. Qed.

Lemma float_of_int_ok z x :
  0 <= z -> float_of_int z = Ok x -> signed_as false x /\ is_finite x.
Proof.
  intros Hz. unfold float_of_int. pose proof (of_Z_sign z Hz) as Hs.
  destruct (of_Z z); intros [= <-]; done.
Qed.

End FloatFacts.

Module FloatExact.
Import Py FloatFacts FloatSpec.

Lemma digits2_pos_lower p : 2 ^ (Zpos (digits2_pos p) - 1) <= Zpos p.
Proof.
  induction p as [p IH|p IH|]; simpl digits2_pos; [| |done].
  - rewrite Pos2Z.inj_succ.
    replace (Z.succ (Zpos (digits2_pos p)) - 1) with (Z.succ (Zpos (digits2_pos p) - 1)) by lia.
    rewrite Z.pow_succ_r by lia. lia.
  - rewrite Pos2Z.inj_succ.
    replace (Z.succ (Zpos (digits2_pos p)) - 1) with (Z.succ (Zpos (digits2_pos p) - 1)) by lia.
    rewrite Z.pow_succ_r by lia. lia.
Qed.

Lemma digits2_pos_small p : Zpos p < 2 ^ 53 -> Zpos (digits2_pos p) <= 53.
Proof.
  intros H. pose proof (digits2_pos_lower p) as Hl.
  destruct (Z_le_gt_dec (Zpos (digits2_pos p)) 53) as [|Hgt]; [done|].
  assert (2 ^ 53 <= 2 ^ (Zpos (digits2_pos p) - 1)) by (apply Z.pow_le_mono_r; lia).
  lia.
Qed.

Lemma digits2_pos_iter_xO p n :
  Zpos (digits2_pos (Pos.iter xO p n)) = Zpos (digits2_pos p) + Zpos n.
Proof.
  induction n as [|n IH] using Pos.peano_ind.
  - simpl. lia.
  - rewrite Pos.iter_succ. simpl digits2_pos. lia.
Qed.

(** An integer below 2^53 converts to a finite float. *)
Lemma of_Z_small z : 0 <= z < 2 ^ 53 -> is_finite (of_Z z).
Proof.
  intros [Hz Hlt]. unfold of_Z, binary_normalize. destruct z as [|p|p]; [done| |lia].
  pose proof (digits2_pos_small p Hlt) as Hd.
  unfold binary_round.
  destruct (shl_align p 0 (fexp prec emax (Zpos (digits2_pos p) + 0))) as [mz ez] eqn:Hal.
  assert (Zpos (digits2_pos mz) = 53 /\ -52 <= ez <= 0 /\ ez = Zpos (digits2_pos p) - 53)
    as (Hmz & Hez & Hez').
  { unfold shl_align, fexp, emin, prec, emax in Hal.
    replace (Z.max (Zpos (digits2_pos p) + 0 - 53) (3 - 1024 - 53))
      with (Zpos (digits2_pos p) - 53) in Hal by lia.
    destruct (Zpos (digits2_pos p) - 53 - 0) as [|d|d] eqn:Hdiff;
      inversion Hal; subst; try lia.
    rewrite digits2_pos_iter_xO. lia. }
  unfold binary_round_aux, shr_fexp, Zdigits2.
  assert (fexp prec emax (Zpos (digits2_pos mz) + ez) - ez = 0) as ->.
  { unfold fexp, emin, prec, emax. lia. }
  simpl. rewrite Hmz.
  assert (fexp prec emax (53 + ez) - ez = 0) as ->.
  { unfold fexp, emin, prec, emax. lia. }
  simpl. destruct (ez <=? emax - prec) eqn:Hle; [done|].
  apply Z.leb_gt in Hle. unfold emax, prec in Hle. lia.
Qed.

Lemma float_of_int_small z : 0 <= z < 2 ^ 53 -> float_of_int z = Ok (of_Z z).
Proof.
  intros H. unfold float_of_int. pose proof (of_Z_small z H) as Hf.
  by destruct (of_Z z).
Qed.

End FloatExact.

Module FloatBounds.
Import Py FloatFacts FloatExact FloatSpec.

Lemma digits2_pos_upper p : Zpos p < 2 ^ Zpos (digits2_pos p).
Proof.
  induction p as [p IH|p IH|]; simpl digits2_pos; [| |done];
    rewrite Pos2Z.inj_succ, Z.pow_succ_r by lia; lia.
Qed.

Lemma Zdigits2_le m d : 0 <= m < 2 ^ d -> 0 <= d -> Zdigits2 m <= d.
Proof.
  intros [Hm Hlt] Hd. destruct m as [|p|p]; simpl; [done| |lia].
  pose proof (digits2_pos_lower p) as Hl.
  destruct (Z_le_gt_dec (Zpos (digits2_pos p)) d) as [|Hgt]; [done|].
  assert (2 ^ d <= 2 ^ (Zpos (digits2_pos p) - 1)) by (apply Z.pow_le_mono_r; lia).
  lia.
Qed.

Lemma Zdigits2_upper m : 0 <= m -> m < 2 ^ Zdigits2 m.
Proof.
  intros Hm. destruct m as [|p|p]; simpl; [done| |lia]. apply digits2_pos_upper.
Qed.

Lemma Zdigits2_nonneg m : 0 <= Zdigits2 m.
Proof. destruct m; simpl; lia. Qed.

Lemma shr_1_digits mrs :
  0 <= shr_m mrs -> Zdigits2 (shr_m (shr_1 mrs)) = Z.max 0 (Zdigits2 (shr_m mrs) - 1).
Proof.
  destruct mrs as [m r s]; destruct m as [|[p|p|]|[p|p|]]; simpl; lia.
Qed.

Lemma iter_shr_1_digits n mrs :
  0 <= shr_m mrs ->
  0 <= shr_m (SpecFloat.iter_pos shr_1 n mrs)
  /\ Zdigits2 (shr_m (SpecFloat.iter_pos shr_1 n mrs))
     = Z.max 0 (Zdigits2 (shr_m mrs) - Zpos n).
Proof.
  revert mrs. induction n as [n IH|n IH|]; intros mrs H; simpl SpecFloat.iter_pos.
  - pose proof (shr_1_nonneg mrs H) as H1. pose proof (shr_1_digits mrs H) as D1.
    destruct (IH _ H1) as [H2 D2]. destruct (IH _ H2) as [H3 D3].
    split; [done|]. rewrite D3, D2, D1. lia.
  - destruct (IH _ H) as [H2 D2]. destruct (IH _ H2) as [H3 D3].
    split; [done|]. rewrite D3, D2. lia.
  - split; [by apply shr_1_nonneg|]. by apply shr_1_digits.
Qed.

(** What [shr_fexp] leaves: a mantissa of at most 53 bits, at the larger of
    the exponent it was given and the one the format asks for. *)
Lemma shr_fexp_spec m e l :
  0 <= m ->
  0 <= shr_m (fst (shr_fexp prec emax m e l))
  /\ Zdigits2 (shr_m (fst (shr_fexp prec emax m e l))) <= 53
  /\ snd (shr_fexp prec emax m e l) = Z.max e (fexp prec emax (Zdigits2 m + e)).
Proof.
  intros Hm. unfold shr_fexp, shr.
  assert (shr_m (shr_record_of_loc m l) = m) as Hrec by (by destruct l as [|[]]).
  pose proof (Zdigits2_nonneg m) as Hd.
  assert (fexp prec emax (Zdigits2 m + e) = Z.max (Zdigits2 m + e - 53) (-1074)) as Hf
    by reflexivity.
  destruct (fexp prec emax (Zdigits2 m + e) - e) as [|n|n] eqn:Hn; cbn [fst snd].
  - rewrite Hrec. lia.
  - destruct (iter_shr_1_digits n (shr_record_of_loc m l)) as [H1 D1]; [by rewrite Hrec|].
    rewrite D1, Hrec. lia.
  - rewrite Hrec. lia.
Qed.

Lemma round_nearest_even_digits m l :
  0 <= m -> Zdigits2 m <= 53 -> Zdigits2 (round_nearest_even m l) <= 54.
Proof.
  intros Hm Hd. apply Zdigits2_le; [|lia].
  pose proof (Zdigits2_upper m Hm) as Hu.
  assert (2 ^ Zdigits2 m <= 2 ^ 53) by (apply Z.pow_le_mono_r; lia).
  change (2 ^ 54) with (2 * 2 ^ 53).
  split; [by apply round_nearest_even_nonneg|].
  unfold round_nearest_even. destruct l as [|[]]; try destruct (Z.even m); lia.
Qed.

(** A finite result has a mantissa of at most 53 bits. *)
Lemma binary_round_aux_mantissa s m e l s' m' e' :
  0 <= m -> binary_round_aux prec emax s m e l = S754_finite s' m' e' ->
  Zpos (digits2_pos m') <= 53.
Proof.
  intros Hm. unfold binary_round_aux.
  destruct (shr_fexp_spec m e l Hm) as (H1 & _ & _).
  destruct (shr_fexp prec emax m e l) as [mrs1 e1]. cbn [fst snd] in *.
  pose proof (round_nearest_even_nonneg _ (loc_of_shr_record mrs1) H1) as H2.
  destruct (shr_fexp_spec _ e1 loc_Exact H2) as (H3 & D3 & _).
  destruct (shr_fexp prec emax _ e1 loc_Exact) as [mrs2 e2]. cbn [fst snd] in *.
  destruct (shr_m mrs2) as [|p|p]; [done| |done].
  destruct (e2 <=? emax - prec); [|done]. intros [= _ <- _]. exact D3.
Qed.

(** A value below 2^1023 given at an exponent of at most 970 does not
    round to an infinity. *)
Lemma binary_round_aux_finite s m e l :
  0 <= m -> e <= 970 -> Zdigits2 m + e <= 1023 ->
  is_finite (binary_round_aux prec emax s m e l).
Proof.
  intros Hm He Hd. unfold binary_round_aux.
  destruct (shr_fexp_spec m e l Hm) as (H1 & D1 & E1).
  destruct (shr_fexp prec emax m e l) as [mrs1 e1]. cbn [fst snd] in *.
  pose proof (round_nearest_even_nonneg _ (loc_of_shr_record mrs1) H1) as H2.
  pose proof (round_nearest_even_digits _ (loc_of_shr_record mrs1) H1 D1) as D2.
  destruct (shr_fexp_spec _ e1 loc_Exact H2) as (H3 & D3 & E3).
  destruct (shr_fexp prec emax _ e1 loc_Exact) as [mrs2 e2]. cbn [fst snd] in *.
  assert (e2 <= 971) as Hle.
  { unfold fexp, emin, prec, emax in *. lia. }
  destruct (shr_m mrs2) as [|p|p]; [done| |lia].
  apply Z.leb_le in Hle. change (emax - prec) with 971. by rewrite Hle.
Qed.

Lemma div_eucl_nonneg a b q r : 0 <= a -> 0 < b -> Z.div_eucl a b = (q, r) -> 0 <= q.
Proof.
  intros Ha Hb H. assert (q = a / b) as -> by (unfold Z.div; by rewrite H).
  apply Z.div_pos; lia.
Qed.

Lemma SFdiv_core_nonneg mx ex my ey mz ez lz :
  SFdiv_core_binary prec emax (Zpos mx) ex (Zpos my) ey = (mz, ez, lz) -> 0 <= mz.
Proof.
  unfold SFdiv_core_binary.
  set (shift := ex - ey - _).
  set (num := match shift with 0 => Zpos mx | Zpos _ => Z.shiftl (Zpos mx) shift | Zneg _ => 0 end).
  assert (0 <= num) as Hnum.
  { subst num. destruct shift; [lia| |lia]. apply Z.shiftl_nonneg. lia. }
  destruct (Z.div_eucl num (Zpos my)) as [q r] eqn:Hdiv. intros [= <- _ _].
  eapply div_eucl_nonneg; [exact Hnum| |exact Hdiv]. lia.
Qed.

Lemma fdiv_bounded x y : bounded_mantissa (fdiv x y).
Proof.
  destruct x as [sx|sx| |sx mx ex], y as [sy|sy| |sy my ey]; try done.
  unfold fdiv, SFdiv.
  destruct (SFdiv_core_binary prec emax (Zpos mx) ex (Zpos my) ey) as [[mz ez] lz] eqn:Hcore.
  apply SFdiv_core_nonneg in Hcore.
  unfold bounded_mantissa.
  destruct (binary_round_aux prec emax (xorb sx sy) mz ez lz) as [| | |s' m' e'] eqn:Hr; try done.
  by eapply binary_round_aux_mantissa.
Qed.

Lemma fmul_small_finite m e (c : positive) ec :
  Zpos (digits2_pos m) <= 53 -> Zpos c < 2 ^ 53 -> e + ec <= 900 ->
  is_finite (fmul (S754_finite false m e) (S754_finite false c ec)).
Proof.
  intros Hm Hc He. unfold fmul, SFmul. cbn [xorb].
  apply binary_round_aux_finite; [lia|lia|].
  pose proof (digits2_pos_upper m) as Hu.
  assert (2 ^ Zpos (digits2_pos m) <= 2 ^ 53) by (apply Z.pow_le_mono_r; lia).
  assert (Zdigits2 (Zpos (m * c)) <= 106); [|lia].
  apply Zdigits2_le; [|lia]. change (2 ^ 106) with (2 ^ 53 * 2 ^ 53).
  rewrite Pos2Z.inj_mul. nia.
Qed.

End FloatBounds.

Module TextFacts.
Import Py utils FloatBounds FloatSpec.

Lemma round_int_finite x : is_finite x -> exists z, round_int x = Ok z.
Proof. destruct x; try done; cbn; eauto. Qed.

(** The text is defined for every float whose mantissa has at most 53 bits,
    so for every result of a float operation. *)
Lemma tree_equivalent_text_defined t :
  bounded_mantissa t -> exists text, generate_tree_equivalent_text t = Ok text.
Proof.
  intros Hb. unfold generate_tree_equivalent_text.
  destruct (fle t fzero) eqn:Hle; [by eexists|].
  destruct (flt t (literal 1 100)); [by eexists|].
  destruct (flt t (literal 1 10)) eqn:Hlt.
  - assert (is_finite (fmul t (of_Z 100))) as Hfin.
    { change (literal 1 10) with (S754_finite false 7205759403792794 (-56)) in Hlt.
      change (of_Z 100) with (S754_finite false 7036874417766400 (-46)).
      destruct t as [s|s| |[|] m e]; try done; [by destruct s|].
      assert (e <= -56) as He.
      { unfold flt, SFltb, SFcompare in Hlt.
        destruct (Z.compare_spec e (-56)); [lia|lia|done]. }
      apply fmul_small_finite; [exact Hb | done | lia]. }
    destruct (round_int_finite _ Hfin) as [z ->]. by eexists.
  - destruct (flt t (of_Z 1)); [by eexists|].
    destruct (flt t (of_Z 2)); by eexists.
Qed.

End TextFacts.

Module CalculatorClaims.
Import Py ecologits_calculator FloatFacts FloatExact OdictFacts FloatSpec CalculatorSpec.

(** The constants of every profile of the table are finite and positive. *)
Lemma known_profile_constants model profile :
  oget model model_profiles = Some profile ->
  (signed_as false (energy_per_input_token profile) /\ is_finite (energy_per_input_token profile)) /\
  (signed_as false (energy_per_output_token profile) /\ is_finite (energy_per_output_token profile)) /\
  signed_as false (base_energy profile).
Proof.
  intros H. apply oget_In in H. vm_compute in H.
  repeat destruct H as [H|H]; try contradiction; inversion H; subst; vm_compute; auto.
Qed.

(** C1 (amended).  For a model id of the profile table and non-negative token
    counts whose conversion to a float does not overflow (by
    [float_of_int_small], every count below 2^53, so every count the validator
    admits), the energy is [input_tokens * a + output_tokens * b + base] in
    float arithmetic for the constants [a], [b], [base] of that model's
    profile, and it is [>= 0]. *)
Theorem energy_of_known_model
  (model : string) (profile : ModelEnergyProfile) (input_tokens output_tokens : Z)
  (x y : float) :
  oget model model_profiles = Some profile ->
  0 <= input_tokens -> 0 <= output_tokens ->
  float_of_int input_tokens = Ok x -> float_of_int output_tokens = Ok y ->
  let energy :=
    fadd (fadd (fmul x (energy_per_input_token profile))
               (fmul y (energy_per_output_token profile)))
         (base_energy profile) in
  calculate_energy_consumption model input_tokens output_tokens = Ok energy
  /\ fle fzero energy = true.
Proof.
  intros Hknown Hin Hout Hx Hy energy. split.
  - unfold calculate_energy_consumption, _get_model_profile, int_times_float.
    rewrite Hknown, Hx, Hy. reflexivity.
  - destruct (known_profile_constants _ _ Hknown) as ((Ha & Hfa) & (Hb & Hfb) & Hc).
    destruct (float_of_int_ok _ _ Hin Hx) as [Hsx Hfx].
    destruct (float_of_int_ok _ _ Hout Hy) as [Hsy Hfy].
    apply nonneg_of_sign. subst energy.
    repeat first [apply fadd_sign | apply fmul_sign]; assumption.
Qed.

Lemma energy_of_known_model_witness :
  calculate_energy_consumption "claude-3-5-sonnet-20241022" 150 500
  = Ok (S754_finite false 6305039478318695 (-55))
  /\ fle fzero (S754_finite false 6305039478318695 (-55)) = true.
Proof.
  exact (energy_of_known_model "claude-3-5-sonnet-20241022" claude_3_5_sonnet_base 150 500
           (of_Z 150) (of_Z 500) eq_refl ltac:(lia) ltac:(lia) eq_refl eq_refl).
Defined.

(** C1 as stated fails: for the known model "claude-3-5-sonnet" and the
    non-negative count 2^1024 the conversion to a float overflows, the
    fallback calculation overflows as well, and the call raises. *)
Lemma energy_raises_for_huge_count :
  oget "claude-3-5-sonnet" model_profiles = Some claude_3_5_sonnet_base
  /\ 0 <= 2 ^ 1024
  /\ calculate_energy_consumption "claude-3-5-sonnet" (2 ^ 1024) 0
     = Raise (OverflowError "int too large to convert to float").
Proof. split; [|split]; [vm_compute; reflexivity | lia | vm_compute; reflexivity]. Qed.

Lemma resolves_get_model_profile model : resolves model (_get_model_profile model).
Proof.
  unfold _get_model_profile.
  destruct (oget model model_profiles) as [profile|] eqn:Hexact; [by constructor|].
  destruct (List.find _ model_profiles) as [[name profile]|] eqn:Hfind.
  - apply find_first in Hfind as (before & after & Hsplit & Hmatch & Hbefore).
    by eapply by_fuzzy_match.
  - apply find_none_iff in Hfind.
    destruct (contains "haiku" (lower model)) eqn:Hh; [by constructor|].
    destruct (contains "opus" (lower model)) eqn:Ho; [by constructor|].
    destruct (contains "sonnet" (lower model) || contains "claude" (lower model)) eqn:Hs;
      by constructor.
Qed.

Lemma resolves_functional model profile :
  resolves model profile -> profile = _get_model_profile model.
Proof.
  unfold _get_model_profile.
  destruct 1 as [p He | before name p after He Hsplit Hm Hb | He Hf Hh | He Hf Hh Ho
                 | He Hf Hh Ho Hs | He Hf Hh Ho Hs]; rewrite He; [done|..].
  - assert (List.find (fun entry => fuzzy_match (lower model) (fst entry)) model_profiles
            = Some (name, p)) as ->; [|done].
    apply find_first. by exists before, after.
  - apply find_none_iff in Hf. by rewrite Hf, Hh.
  - apply find_none_iff in Hf. by rewrite Hf, Hh, Ho.
  - apply find_none_iff in Hf. by rewrite Hf, Hh, Ho, Hs.
  - apply find_none_iff in Hf. by rewrite Hf, Hh, Ho, Hs.
Qed.

(** C3 (amended).  The profile of a model id is the one the ordered rules
    give: exact match, else the first profile of the table whose name fuzzily
    matches the lower-cased id, else the family the lower-cased id names
    (haiku, then opus, then sonnet or claude), else the default.  For an id
    that matches no profile exactly and none fuzzily, the constants are those
    of the haiku fallback when it contains "haiku", of the opus fallback when
    it contains "opus" and not "haiku", and (0.0001, 0.0003, 0.01) otherwise. *)
Theorem profile_resolution_order (model : string) :
  (forall profile, resolves model profile <-> profile = _get_model_profile model)
  /\ (oget model model_profiles = None -> no_fuzzy_match model ->
      (contains "haiku" (lower model) = true ->
       constants (_get_model_profile model)
       = (literal 5 100000, literal 15 100000, literal 5 1000))
      /\ (contains "haiku" (lower model) = false -> contains "opus" (lower model) = true ->
          constants (_get_model_profile model)
          = (literal 2 10000, literal 5 10000, literal 2 100))
      /\ (contains "haiku" (lower model) = false -> contains "opus" (lower model) = false ->
          constants (_get_model_profile model)
          = (literal 1 10000, literal 3 10000, literal 1 100))).
Proof.
  split.
  - intros profile. split; [apply resolves_functional|].
    intros ->. apply resolves_get_model_profile.
  - intros He Hf. unfold _get_model_profile. rewrite He.
    apply find_none_iff in Hf. rewrite Hf.
    split; [|split].
    + by intros ->.
    + by intros -> ->.
    + intros -> ->. by destruct (_ || _).
Qed.

(** C3 as stated fails: "20240307" is not in the table and contains neither
    "haiku" nor "opus", yet it is a substring of "claude-3-haiku-20240307", so
    the fuzzy rule gives it the haiku constants and not the default ones. *)
Lemma unknown_id_resolved_by_fuzzy_match :
  oget "20240307" model_profiles = None
  /\ contains "haiku" "20240307" = false
  /\ contains "opus" "20240307" = false
  /\ constants (_get_model_profile "20240307")
     = (literal 5 100000, literal 15 100000, literal 5 1000)
  /\ constants (_get_model_profile "20240307") <> constants _get_default_profile.
Proof. repeat split; try (vm_compute; reflexivity). vm_compute. discriminate. Qed.

End CalculatorClaims.

Module CarbonFacts.
Import Py carbon_intensity PyFacts CarbonSpec.

Ltac list_cases H :=
  repeat (apply elem_of_cons in H as [H|H]); [..|by apply elem_of_nil in H].

Lemma aws_regions_identity (k r : string) :
  aws_regions !! k = Some r -> r = k /\ r ∈ canonical_regions.
Proof.
  intros H. apply elem_of_list_to_map_2 in H.
  list_cases H; inversion H; subst; (split; [reflexivity | unfold canonical_regions; set_solver]).
Qed.

Lemma location_mapping_canonical (k r : string) :
  location_mapping !! k = Some r -> r ∈ canonical_regions.
Proof.
  intros H. apply elem_of_list_to_map_2 in H.
  list_cases H; inversion H; subst; unfold canonical_regions; set_solver.
Qed.

Lemma canonical_fixed (r : string) :
  r ∈ canonical_regions -> _normalize_location r = r.
Proof.
  intros H. unfold canonical_regions in H.
  list_cases H; subst; vm_compute; reflexivity.
Qed.

Lemma regional_fallbacks_positive (k : string) (z : Z) :
  regional_fallbacks !! k = Some z -> 0 < z <= 500.
Proof.
  intros H. apply elem_of_list_to_map_2 in H.
  list_cases H; inversion H; subst; lia.
Qed.

Lemma fallback_intensity_positive (location : string) :
  0 < _get_fallback_intensity location <= 500.
Proof.
  unfold _get_fallback_intensity.
  destruct (regional_fallbacks !! location) as [z|] eqn:H; simpl.
  - by eapply regional_fallbacks_positive.
  - vm_compute. split; [reflexivity|discriminate].
Qed.

Lemma fallback_intensity_default (location : string) :
  regional_fallbacks !! location = None -> _get_fallback_intensity location = 400.
Proof. intros H. unfold _get_fallback_intensity. rewrite H. reflexivity. Qed.

Lemma electricity_maps_silent self net location :
  (forall token zone, electricity_maps_latest net token zone = Miss) ->
  _get_electricity_maps_intensity self net location = None.
Proof.
  intros H. unfold _get_electricity_maps_intensity.
  destruct (zone_mapping !! location); [|done].
  rewrite H. by destruct (negb _).
Qed.

Lemma watt_time_silent self net location :
  (forall token region, watt_time_index net token region = Miss) ->
  fst (_get_watt_time_intensity self net location) = None.
Proof.
  intros H. unfold _get_watt_time_intensity.
  repeat match goal with
         | |- context [if ?b then _ else _] => destruct b
         | |- context [match ?o with Some _ => _ | None => _ end] => destruct o
         end; simpl; rewrite ?H; done.
Qed.

Lemma silent_resolution self net (location : string) :
  providers_silent self net ->
  fst (get_carbon_intensity self net (JStr location))
  = Int (_get_fallback_intensity (_normalize_location location)).
Proof.
  intros [Hmaps Hwatt]. unfold get_carbon_intensity.
  set (n := _normalize_location location).
  assert (usable (if set_and_nonempty (electricity_maps_token self)
                  then _get_electricity_maps_intensity self net n else None) = false) as ->.
  { destruct Hmaps as [-> | Hm]; [done|].
    rewrite electricity_maps_silent by done.
    destruct (set_and_nonempty (electricity_maps_token self)); reflexivity. }
  destruct (startswith n "us-" && set_and_nonempty (watt_time_username self)) eqn:Hus.
  - destruct Hwatt as [Hu | Hw].
    + rewrite Hu, andb_false_r in Hus. done.
    + pose proof (watt_time_silent self net n Hw) as Hnone.
      destruct (_get_watt_time_intensity self net n) as [r s']. simpl in Hnone. subst r. done.
  - done.
Qed.

End CarbonFacts.

Module CarbonClaims.
Import Py carbon_intensity PyFacts CarbonFacts CarbonSpec.

(** C10.  Location normalization is idempotent: normalizing a normalized
    location changes nothing.  Hence every canonical region code and every
    unrecognized string that was passed through (lower-cased and stripped) is
    a fixed point. *)
Theorem normalize_location_idempotent (s : string) :
  _normalize_location (_normalize_location s) = _normalize_location s.
Proof.
  unfold _normalize_location at 2 3.
  set (l := strip (lower s)).
  destruct (aws_regions !! l) as [r|] eqn:Haws.
  - apply aws_regions_identity in Haws as [_ Hr]. by apply canonical_fixed.
  - destruct (location_mapping !! l) as [r|] eqn:Hmap; simpl.
    + apply location_mapping_canonical in Hmap. by apply canonical_fixed.
    + unfold _normalize_location. subst l.
      rewrite strip_lower_fixed, Haws, Hmap. reflexivity.
Qed.

(** C4.  When every provider is unconfigured or answers nothing, a location
    whose canonical form is not a key of the regional fallback table resolves
    to exactly 400, and every location (a string or not) resolves to a
    strictly positive intensity. *)
Theorem fallback_when_providers_silent self net (location : json) :
  providers_silent self net ->
  let resolved := fst (get_carbon_intensity self net location) in
  (forall s, location = JStr s ->
             regional_fallbacks !! _normalize_location s = None -> resolved = Int 400)
  /\ positive_num resolved = true.
Proof.
  intros Hsilent resolved. subst resolved. split.
  - intros s -> Habsent. rewrite silent_resolution by done.
    by rewrite fallback_intensity_default.
  - destruct location as [| | | |s| |].
    5: { rewrite silent_resolution by done. simpl.
         apply Z.ltb_lt, fallback_intensity_positive. }
    all: reflexivity.
Qed.

Lemma fallback_when_providers_silent_witness :
  let resolved :=
    fst (get_carbon_intensity Examples.no_providers Examples.silent_network (JStr "Mars")) in
  (forall s, JStr "Mars" = JStr s ->
             regional_fallbacks !! _normalize_location s = None -> resolved = Int 400)
  /\ positive_num resolved = true.
Proof.
  apply (fallback_when_providers_silent Examples.no_providers Examples.silent_network
           (JStr "Mars")).
  split; left; reflexivity.
Defined.

(** An unlisted location resolves to the default, a listed alias to its entry. *)
Example unlisted_location_resolves_to_default :
  regional_fallbacks !! _normalize_location "Mars" = None
  /\ fst (get_carbon_intensity Examples.no_providers Examples.silent_network (JStr "Mars"))
     = Int 400
  /\ fst (get_carbon_intensity Examples.no_providers Examples.silent_network
            (JStr "  California "))
     = Int 350.
Proof. repeat split; vm_compute; reflexivity. Qed.

End CarbonClaims.

Module ValidatorFacts.
Import Py utils ValidatorSpec.

Lemma validate_dict (fromisoformat : string -> bool) (record : gmap string json) :
  validate_request_data fromisoformat (JObj record)
  = Ok (first_violation fromisoformat record).
Proof.
  unfold validate_request_data, first_violation, rules, check_required, required_fields,
    check_timestamp, check_location, has_field, get_field, missing. cbn [List.find violated bind].
  destruct (record !! "model") as [model|]; [|reflexivity].
  destruct (record !! "input_tokens") as [input_tokens|]; [|reflexivity].
  destruct (record !! "output_tokens") as [output_tokens|]; [|reflexivity].
  cbn [negb bind from_option].
  change (match model with JStr text => String.eqb (strip text) "" | _ => true end)
    with (blank_or_not_str model).
  destruct (blank_or_not_str model) eqn:Hmodel; [reflexivity|].
  destruct (not_a_count input_tokens); [reflexivity|].
  destruct (not_a_count output_tokens); [reflexivity|].
  destruct (above_limit input_tokens); [reflexivity|].
  destruct (above_limit output_tokens); [reflexivity|].
  unfold blank_or_not_str.
  destruct (record !! "timestamp") as [[|b|z|f|text|l|m]|];
    cbn [bind from_option Json.truthy Json.is_str negb andb];
    [ | destruct b | destruct (negb (z =? 0)) | destruct (float_truthy f)
      | destruct (negb (String.eqb text ""));
        destruct (fromisoformat (replace_char "Z" "+00:00" text))
      | destruct l | destruct (map_to_list m) | ];
    cbn [bind from_option Json.truthy Json.is_str negb andb]; try reflexivity.
  all: destruct (record !! "location") as [[|b'|z'|f'|text'|l'|m']|];
    cbn [bind from_option Json.truthy Json.is_str negb andb];
    [ | destruct b' | destruct (negb (z' =? 0)) | destruct (float_truthy f')
      | destruct (negb (String.eqb text' "")); destruct (String.eqb (strip text') "")
      | destruct l' | destruct (map_to_list m') | ];
    reflexivity.
Qed.

Lemma rule_messages_distinct (fromisoformat : string -> bool) :
  NoDup (message <$> rules fromisoformat).
Proof.
  unfold rules. cbn [fmap list_fmap message].
  apply (bool_decide_unpack _). vm_compute. exact I.
Qed.

End ValidatorFacts.

Module ValidatorClaims.
Import Py utils ValidatorFacts ValidatorSpec.

(** C5 (amended).  On every record (a JSON object) the validator returns the
    message of the first violated rule of [rules], and no error when none is
    violated; the messages are pairwise distinct.  A model must be a string
    that is not blank; a token count must be an integer (a boolean counts as
    one) that is not negative and not above 1,000,000; a timestamp or a
    location is examined only when its value is true in a condition. *)
Theorem validator_reports_first_violation
  (fromisoformat : string -> bool) (record : gmap string json) :
  validate_request_data fromisoformat (JObj record)
  = Ok (first_violation fromisoformat record)
  /\ NoDup (message <$> rules fromisoformat).
Proof. split; [apply validate_dict | apply rule_messages_distinct]. Qed.

(** C5 as stated fails: a record whose location is present and is the empty
    string, which is not a non-empty string, is accepted. *)
Lemma empty_location_accepted :
  let record : gmap string json :=
    list_to_map [ ("model", JStr "m"); ("input_tokens", JInt 1);
                  ("output_tokens", JInt 1); ("location", JStr "") ] in
  from_option not_nonempty_str false (record !! "location") = true
  /\ validate_request_data (fun _ => false) (JObj record) = Ok None.
Proof. split; vm_compute; reflexivity. Qed.

(** The invalid request of the service's test script is rejected for its
    model, the first rule it violates. *)
Example test_script_invalid_request :
  validate_request_data (fun _ => true)
    (JObj (list_to_map [ ("model", JStr ""); ("input_tokens", JInt (-1));
                         ("output_tokens", JStr "not_a_number") ]))
  = Ok (Some "Model must be a non-empty string").
Proof. vm_compute. reflexivity. Qed.

End ValidatorClaims.

Module FormatterClaims.
Import Py utils FormatterSpec.

(** [round_half_even] picks a nearest integer: it is off by at most half. *)
Lemma round_half_even_nearest n d :
  0 < d -> Z.abs (2 * (n - round_half_even n d * d)) <= d.
Proof.
  intros Hd. unfold round_half_even.
  pose proof (Z.div_mod n d ltac:(lia)) as Hdm.
  pose proof (Z.mod_pos_bound n d Hd) as Hm.
  set (q := n / d) in *. set (r := n mod d) in *. clearbody q r. subst n.
  destruct (Z.compare_spec (2 * r) d); [destruct (Z.even q)| |]; lia.
Qed.

(** The digits of a rounding are within half a unit of the scaled value. *)
Lemma scaled_int_nearest m k digits :
  Z.abs (2 * (Zpos m * 10 ^ digits - scaled_int m (Zneg k) digits * 2 ^ Zpos k))
  <= 2 ^ Zpos k.
Proof.
  unfold scaled_int. apply round_half_even_nearest. apply Z.pow_pos_nonneg; lia.
Qed.

Lemma formatted_measures now data r :
  format_environmental_response now data = Formatted r ->
  exists m text,
    read_measures data = Ok m
    /\ generate_tree_equivalent_text (m_tree_equivalent m) = Ok text
    /\ r = {| energy_wh := round_ndigits (m_energy_wh m) 6;
              co2_emissions_g := round_ndigits (m_co2_emissions_g m) 6;
              carbon_intensity_g_kwh := round_ndigits (m_carbon_intensity_g_kwh m) 2;
              tree_equivalent := round_ndigits (m_tree_equivalent m) 3;
              equivalent_text := text;
              source := default (JStr "ecologits_methodology") (data_source data);
              location := default (JStr "us-west-1") (data_location data);
              timestamp := default (JStr now) (data_timestamp data);
              additional_equivalents :=
                calculate_additional_equivalents (m_co2_emissions_g m) |}.
Proof.
  unfold format_environmental_response, read_measures.
  destruct (to_float (default (Int 0) (data_energy_wh data))) as [e|]; [|done].
  destruct (to_float (default (Int 0) (data_co2_emissions_g data))) as [c|]; [|done].
  destruct (to_float (default (Int 0) (data_carbon_intensity_g_kwh data))) as [i|]; [|done].
  destruct (to_float (default (Int 0) (data_tree_equivalent data))) as [t|]; [|done].
  cbn [bind].
  destruct (generate_tree_equivalent_text t) as [text|] eqn:Htext; [|done].
  intros [= <-]. eexists _, text. cbn [bind]. split; [reflexivity|]. split; [exact Htext|reflexivity].
Qed.

(** C8 (amended).  In a formatted result [energy_wh] and [co2_emissions_g]
    are rounded to 6 decimals, [carbon_intensity_g_kwh] to 2 and
    [tree_equivalent] to 3; when the CO2 is positive the additional
    equivalents are the CO2 divided by 8, 411, 0.5 and 20, rounded to 2, 3, 1
    and 2 decimals, and when the CO2 is [<= 0] they are all the integer 0. *)
Theorem formatter_rounding now data r :
  format_environmental_response now data = Formatted r ->
  exists m,
    read_measures data = Ok m
    /\ energy_wh r = round_ndigits (m_energy_wh m) 6
    /\ co2_emissions_g r = round_ndigits (m_co2_emissions_g m) 6
    /\ carbon_intensity_g_kwh r = round_ndigits (m_carbon_intensity_g_kwh m) 2
    /\ tree_equivalent r = round_ndigits (m_tree_equivalent m) 3
    /\ (fle (m_co2_emissions_g m) fzero = false ->
        additional_equivalents r
        = {| phone_charges := Float (round_ndigits (fdiv (m_co2_emissions_g m) (of_Z 8)) 2);
             miles_driven := Float (round_ndigits (fdiv (m_co2_emissions_g m) (of_Z 411)) 3);
             led_hours := Float (round_ndigits (fdiv (m_co2_emissions_g m) (literal 5 10)) 1);
             laptop_hours := Float (round_ndigits (fdiv (m_co2_emissions_g m) (of_Z 20)) 2) |})
    /\ (fle (m_co2_emissions_g m) fzero = true ->
        additional_equivalents r
        = {| phone_charges := Int 0; miles_driven := Int 0;
             led_hours := Int 0; laptop_hours := Int 0 |}).
Proof.
  intros H. apply formatted_measures in H as (m & text & Hm & _ & ->).
  exists m. repeat split; try done; cbn [additional_equivalents];
    unfold calculate_additional_equivalents; by intros ->.
Qed.

Lemma formatter_rounding_witness :
  exists m,
    read_measures example_data = Ok m
    /\ energy_wh example_result = round_ndigits (m_energy_wh m) 6
    /\ co2_emissions_g example_result = round_ndigits (m_co2_emissions_g m) 6
    /\ carbon_intensity_g_kwh example_result = round_ndigits (m_carbon_intensity_g_kwh m) 2
    /\ tree_equivalent example_result = round_ndigits (m_tree_equivalent m) 3
    /\ (fle (m_co2_emissions_g m) fzero = false ->
        additional_equivalents example_result
        = {| phone_charges := Float (round_ndigits (fdiv (m_co2_emissions_g m) (of_Z 8)) 2);
             miles_driven := Float (round_ndigits (fdiv (m_co2_emissions_g m) (of_Z 411)) 3);
             led_hours := Float (round_ndigits (fdiv (m_co2_emissions_g m) (literal 5 10)) 1);
             laptop_hours := Float (round_ndigits (fdiv (m_co2_emissions_g m) (of_Z 20)) 2) |})
    /\ (fle (m_co2_emissions_g m) fzero = true ->
        additional_equivalents example_result
        = {| phone_charges := Int 0; miles_driven := Int 0;
             led_hours := Int 0; laptop_hours := Int 0 |}).
Proof.
  apply (formatter_rounding "2025-06-25T10:30:00" example_data example_result).
  vm_compute. reflexivity.
Defined.

(** C8 as stated fails: [led_hours] is rounded to one decimal, which differs
    from the rounding to two and to three decimals. *)
Lemma led_hours_rounded_to_one_decimal :
  let co2 := S754_finite false 8827055269646173 (-57) in
  let led := fdiv co2 (literal 5 10) in
  fle co2 fzero = false
  /\ led_hours (calculate_additional_equivalents co2) = Float (round_ndigits led 1)
  /\ round_ndigits led 1 <> round_ndigits led 2
  /\ round_ndigits led 1 <> round_ndigits led 3.
Proof. vm_compute. repeat split; discriminate. Qed.

(** C9.  Formatting is deterministic: whatever the clock reads at the two
    calls, the same data gives the same rounded measures, equivalent text
    (hence tier), additional equivalents, source and location; when the data
    carries a timestamp the two responses are equal. *)
Theorem formatter_deterministic (now1 now2 : string) (data : impact_data) :
  clock_free (format_environmental_response now1 data)
  = clock_free (format_environmental_response now2 data)
  /\ (is_Some (data_timestamp data) ->
      format_environmental_response now1 data = format_environmental_response now2 data).
Proof.
  unfold format_environmental_response.
  destruct (to_float (default (Int 0) (data_energy_wh data))) as [e|]; [|done].
  destruct (to_float (default (Int 0) (data_co2_emissions_g data))) as [c|]; [|done].
  destruct (to_float (default (Int 0) (data_carbon_intensity_g_kwh data))) as [i|]; [|done].
  destruct (to_float (default (Int 0) (data_tree_equivalent data))) as [t|]; [|done].
  cbn [bind].
  destruct (generate_tree_equivalent_text t) as [text|]; [|done].
  cbn [bind clock_free]. split; [reflexivity|].
  intros [ts ->]. reflexivity.
Qed.

End FormatterClaims.

Module CacheFacts.
Import Py app CacheSpec.

Section cache.
Context {V : Type}.
Implicit Types (cache : odict V) (writes : list (string * V)).

Lemma oset_length k (v : V) cache :
  (length cache <= length (oset k v cache) <= S (length cache))%nat.
Proof.
  induction cache as [|[k' v'] cache IH]; simpl; [lia|].
  destruct (String.eqb k k'); simpl; lia.
Qed.

Lemma oset_fresh k (v : V) cache :
  ~ In k (okeys cache) -> oset k v cache = (cache ++ [(k, v)])%list.
Proof.
  unfold okeys. induction cache as [|[k' v'] cache IH]; simpl; [done|].
  intros Hk. destruct (String.eqb k k') eqn:Heq.
  - apply String.eqb_eq in Heq. subst. exfalso. apply Hk. by left.
  - rewrite IH; [done|]. intros Hin. apply Hk. by right.
Qed.

(** Deleting the first [n] keys in order drops the first [n] entries. *)
Lemma delete_first_keys (n : nat) cache :
  fold_left (fun cache key => odel key cache) (firstn n (okeys cache)) cache = skipn n cache.
Proof.
  revert cache. induction n as [|n IH]; intros [|[k v] cache]; simpl; try done.
  rewrite String.eqb_refl. apply IH.
Qed.

Lemma skipn_app_short {A} (n : nat) (l l' : list A) :
  (n <= length l)%nat -> (skipn n l ++ l')%list = skipn n (l ++ l')%list.
Proof.
  intros H. rewrite skipn_app. replace (n - length l)%nat with 0%nat by lia. done.
Qed.

Lemma cache_result_eq k (v : V) cache :
  cache_result cache k v =
  if (1000 <? length (oset k v cache))%nat then skipn 200 (oset k v cache) else oset k v cache.
Proof. unfold cache_result. by rewrite delete_first_keys. Qed.

Lemma cache_result_bounded k (v : V) cache :
  (length cache <= 1000)%nat -> (length (cache_result cache k v) <= 1000)%nat.
Proof.
  intros H. rewrite cache_result_eq. pose proof (oset_length k v cache).
  destruct (1000 <? length (oset k v cache))%nat eqn:Hc.
  - rewrite length_skipn. lia.
  - apply Nat.ltb_ge in Hc. lia.
Qed.

Lemma writes_bounded writes cache :
  (length cache <= 1000)%nat ->
  (length (fold_left (fun cache write => cache_result cache (fst write) (snd write))
                     writes cache) <= 1000)%nat.
Proof.
  revert cache. induction writes as [|[k v] writes IH]; intros cache H; simpl; [done|].
  apply IH. by apply cache_result_bounded.
Qed.

Lemma evicted_le n : (evicted n <= n)%nat.
Proof.
  unfold evicted. destruct (n <=? 1000)%nat eqn:H; [lia|].
  apply Nat.leb_gt in H.
  pose proof (Nat.div_mod_eq (n - 801) 200).
  pose proof (Nat.mod_upper_bound (n - 801) 200). lia.
Qed.

Lemma after_writes_fifo writes :
  NoDup (map fst writes) -> after_writes writes = skipn (evicted (length writes)) writes.
Proof.
  induction writes as [|[k v] writes IH] using rev_ind; [done|].
  rewrite map_app. simpl. intros Hnd.
  apply NoDup_app in Hnd as (Hnd & Hfresh & _).
  assert (~ In k (map fst writes)) as Hk.
  { intros Hin. apply (Hfresh k); [by apply list_elem_of_In | set_solver]. }
  specialize (IH Hnd).
  unfold after_writes in *. rewrite fold_left_app. simpl. rewrite IH.
  pose proof (evicted_le (length writes)) as Hle.
  assert (~ In k (okeys (skipn (evicted (length writes)) writes))) as Hk'.
  { intros Hin. apply Hk. unfold okeys in Hin. rewrite <- skipn_map in Hin.
    rewrite <- (firstn_skipn (evicted (length writes)) (map fst writes)).
    apply in_or_app. by right. }
  rewrite cache_result_eq, oset_fresh by done.
  rewrite !length_app, length_skipn. simpl.
  rewrite skipn_app_short by lia.
  pose proof (writes_bounded writes [] ltac:(simpl; lia)) as Hb.
  fold (after_writes writes) in Hb. unfold after_writes in Hb.
  rewrite IH, length_skipn in Hb.
  assert (evicted (length writes + 1) =
          if (1000 <? length writes - evicted (length writes) + 1)%nat
          then (evicted (length writes) + 200)%nat else evicted (length writes)) as ->.
  { unfold evicted in *.
    pose proof (Nat.div_mod_eq (length writes - 801) 200) as Hd1.
    pose proof (Nat.mod_upper_bound (length writes - 801) 200 ltac:(lia)) as Hm1.
    pose proof (Nat.div_mod_eq (length writes + 1 - 801) 200) as Hd2.
    pose proof (Nat.mod_upper_bound (length writes + 1 - 801) 200 ltac:(lia)) as Hm2.
    destruct (Nat.leb_spec (length writes) 1000) as [Hn1|Hn1];
      destruct (Nat.leb_spec (length writes + 1) 1000) as [Hn2|Hn2];
      match goal with |- context [(1000 <? ?x)%nat] => destruct (Nat.ltb_spec 1000 x) end;
      lia. }
  destruct (1000 <? _)%nat; [|done].
  rewrite skipn_skipn. f_equal. lia.
Qed.

Lemma oset_Forall (P : V -> Prop) k (v : V) cache :
  Forall P (map snd cache) -> P v -> Forall P (map snd (oset k v cache)).
Proof.
  intros Hc Hv. induction cache as [|[k' v'] cache IH]; simpl in *.
  - by constructor.
  - apply Forall_cons in Hc as [Hv' Hc].
    destruct (String.eqb k k'); simpl; constructor; auto.
Qed.

Lemma cache_result_Forall (P : V -> Prop) k (v : V) cache :
  Forall P (map snd cache) -> P v -> Forall P (map snd (cache_result cache k v)).
Proof.
  intros Hc Hv. rewrite cache_result_eq.
  pose proof (oset_Forall P k v cache Hc Hv) as H.
  destruct (1000 <? _)%nat; [|done].
  rewrite <- skipn_map. by apply Forall_drop.
Qed.

Lemma oget_Forall (P : V -> Prop) k (v : V) cache :
  Forall P (map snd cache) -> oget k cache = Some v -> P v.
Proof.
  intros Hc. induction cache as [|[k' v'] cache IH]; simpl in *; [done|].
  apply Forall_cons in Hc as [Hv' Hc].
  destruct (String.eqb k k'); [by intros [= <-]|auto].
Qed.

End cache.

End CacheFacts.

Module CacheClaims.
Import Py app CacheFacts CacheSpec.

(** C7.  After any sequence of writes into the empty cache the cache holds
    at most 1000 entries.  When the keys written are distinct, the cache is
    the sequence of writes without its first [evicted n] entries: the evicted
    keys are exactly the earliest inserted ones, every surviving key was
    inserted after every evicted one, and something is evicted as soon as
    more than 1000 keys have been written. *)
Theorem cache_bounded_and_first_in_first_out {V} (writes : list (string * V)) :
  (length (after_writes writes) <= 1000)%nat
  /\ (NoDup (map fst writes) ->
      after_writes writes = skipn (evicted (length writes)) writes
      /\ (evicted (length writes) <= length writes)%nat
      /\ (1000 < length writes -> 0 < evicted (length writes))%nat).
Proof.
  split; [apply writes_bounded; simpl; lia|].
  intros Hnd. split; [by apply after_writes_fifo|]. split; [apply evicted_le|].
  intros H. unfold evicted. destruct (length writes <=? 1000)%nat eqn:Hc.
  - apply Nat.leb_le in Hc. lia.
  - pose proof (Nat.div_mod_eq (length writes - 801) 200).
    pose proof (Nat.mod_upper_bound (length writes - 801) 200 ltac:(lia)). lia.
Qed.

(** The first eviction comes with the 1001st key and drops 200 entries, the
    next one with the 1201st. *)
Example evicted_values :
  evicted 1000 = 0%nat /\ evicted 1001 = 200%nat
  /\ evicted 1200 = 200%nat /\ evicted 1201 = 400%nat.
Proof. repeat split; reflexivity. Qed.

(** Writing the keys "0" to "1000" leaves the keys "200" to "1000". *)
Example thousand_and_one_writes :
  okeys (after_writes (map (fun n : nat => (pretty n, n)) (seq 0 1001)))
  = map pretty (seq 200 801).
Proof. vm_compute. reflexivity. Qed.

End CacheClaims.

Module AppFacts.
Import Py app utils ValidatorFacts OdictFacts FloatExact FloatFacts CacheFacts CarbonFacts FloatBounds TextFacts FloatSpec ValidatorSpec CarbonSpec CacheSpec AppSpec.

Lemma not_a_count_false j : not_a_count j = false -> exists z, Json.as_int j = Some z /\ 0 <= z.
Proof.
  unfold not_a_count. destruct (Json.as_int j) as [z|]; [|done].
  intros H. apply Z.ltb_ge in H. eauto.
Qed.

Lemma valid_dict_shape iso (record : gmap string json) :
  validate_request_data iso (JObj record) = Ok None ->
  exists model input_tokens output_tokens,
    record !! "model" = Some (JStr model)
    /\ record !! "input_tokens" = Some input_tokens
    /\ record !! "output_tokens" = Some output_tokens
    /\ count_ok input_tokens /\ count_ok output_tokens
    /\ location_ok (record !! "location").
Proof.
  rewrite validate_dict. intros [= H]. unfold first_violation in H.
  apply fmap_None, find_none_iff in H. unfold rules in H.
  repeat (apply Forall_cons in H as [? H]). clear H.
  repeat match goal with H : violated _ _ = false |- _ => cbn [violated] in H end.
  unfold missing in *.
  destruct (record !! "model") as [model|]; [|done].
  destruct (record !! "input_tokens") as [input_tokens|]; [|done].
  destruct (record !! "output_tokens") as [output_tokens|]; [|done].
  cbn [from_option] in *.
  destruct model as [| | | |model| |]; try done.
  exists model, input_tokens, output_tokens. repeat split; try done.
  - destruct (not_a_count_false input_tokens) as (z & Hz & Hpos); [done|].
    exists z. split; [done|]. unfold above_limit in *. rewrite Hz in *.
    match goal with H : (1000000 <? z) = false |- _ => apply Z.ltb_ge in H end. lia.
  - destruct (not_a_count_false output_tokens) as (z & Hz & Hpos); [done|].
    exists z. split; [done|]. unfold above_limit in *. rewrite Hz in *.
    match goal with H : (1000000 <? z) = false |- _ => apply Z.ltb_ge in H end. lia.
  - unfold location_ok. destruct (record !! "location") as [l|]; [|done].
    cbn [from_option] in *.
    destruct (Json.truthy l); [|by left]. right.
    destruct l; try done. eauto.
Qed.

Lemma valid_is_dict iso data :
  validate_request_data iso data = Ok None -> exists record, data = JObj record.
Proof.
  destruct data as [|b|z|f|text|l|record]; try done; [| |by eauto].
  - unfold validate_request_data, check_required, required_fields, has_field, get_field.
    cbn [bind negb].
    destruct (contains "model" text); cbn [bind negb]; [|done].
    destruct (contains "input_tokens" text); cbn [bind negb]; [|done].
    destruct (contains "output_tokens" text); cbn [bind negb]; done.
  - unfold validate_request_data, check_required, required_fields, has_field, get_field.
    cbn [bind negb].
    destruct (existsb _ l); cbn [bind negb]; [|done].
    destruct (existsb _ l); cbn [bind negb]; [|done].
    destruct (existsb _ l); cbn [bind negb]; done.
Qed.

Lemma dict_with_key_truthy (record : gmap string json) key v :
  record !! key = Some v -> Json.truthy (JObj record) = true.
Proof.
  intros H. cbn [Json.truthy]. destruct (map_to_list record) eqn:Hl; [|done].
  apply map_to_list_empty_iff in Hl. subst. by rewrite lookup_empty in H.
Qed.

Lemma count_interpolates j : count_ok j -> exists text, interpolate j = Ok text.
Proof.
  intros (z & Hz & _). unfold interpolate.
  destruct j as [|b|z'| | | |]; try done; cbn; eauto.
Qed.

Lemma falsy_interpolates j : Json.truthy j = false -> exists text, interpolate j = Ok text.
Proof.
  unfold interpolate. destruct j as [|b|z|f|text|l|m]; cbn; eauto.
  - destruct f; try done; eauto.
  - destruct l; [eauto|done].
  - destruct (map_to_list m); [eauto|done].
Qed.

Lemma valid_request_reads (w : world) (record : gmap string json) :
  validate_request_data (fromisoformat w) (JObj record) = Ok None ->
  exists p,
    read_request w (JObj record) = Ok p
    /\ 0 <= p_input_tokens p <= 1000000
    /\ 0 <= p_output_tokens p <= 1000000.
Proof.
  intros H. apply valid_dict_shape in H
    as (model & it & ot & Hm & Hi & Ho & Hci & Hco & Hloc).
  destruct (count_interpolates _ Hci) as [ti Hti].
  destruct (count_interpolates _ Hco) as [to Hto].
  destruct Hci as (zi & Hzi & Hbi). destruct Hco as (zo & Hzo & Hbo).
  assert (exists tl, interpolate (default (JStr "us-west-1") (record !! "location")) = Ok tl)
    as [tl Htl].
  { unfold location_ok in Hloc. destruct (record !! "location") as [l|]; cbn [default].
    - destruct Hloc as [Hf | [text ->]]; [by apply falsy_interpolates | by eexists].
    - by eexists. }
  unfold read_request, get_field, get_or, expect_int.
  rewrite Hm, Hi, Ho. cbn [bind]. rewrite Hti, Hto, Htl. cbn [bind interpolate Json.str expect_str].
  rewrite Hzi, Hzo. cbn [bind]. eexists. split; [reflexivity|]. cbn. done.
Qed.

Lemma small_count_converts z : 0 <= z <= 1000000 -> float_of_int z = Ok (of_Z z).
Proof.
  intros H. apply float_of_int_small. change (2 ^ 53) with 9007199254740992. lia.
Qed.

Lemma energy_defined model zi zo :
  0 <= zi <= 1000000 -> 0 <= zo <= 1000000 ->
  exists e, ecologits_calculator.calculate_energy_consumption model zi zo = Ok e.
Proof.
  intros Hi Ho.
  unfold ecologits_calculator.calculate_energy_consumption,
    ecologits_calculator.int_times_float.
  rewrite !small_count_converts by done. cbn [bind try_except]. eauto.
Qed.

Lemma intensity_converts self net location :
  exists x, to_float (fst (carbon_intensity.get_carbon_intensity self net location)) = Ok x.
Proof.
  assert (forall l, exists x,
            to_float (Int (carbon_intensity._get_fallback_intensity l)) = Ok x) as Hfb.
  { intros l. pose proof (fallback_intensity_positive l). cbn [to_float].
    rewrite float_of_int_small; [eauto|]. change (2 ^ 53) with 9007199254740992. lia. }
  unfold carbon_intensity.get_carbon_intensity.
  destruct location as [| | | |s| |]; try (by eexists).
  destruct (carbon_intensity.usable _); [by eexists|].
  destruct (if _ : bool then _ else _) as [from_watt self'].
  destruct (carbon_intensity.usable from_watt); [by eexists|]. apply Hfb.
Qed.

Lemma compute_impact_coherent w st p :
  cache_coherent st ->
  0 <= p_input_tokens p <= 1000000 -> 0 <= p_output_tokens p <= 1000000 ->
  exists r st',
    compute_impact w st p = (Response (ImpactBody (Formatted r)), st')
    /\ tree_from_co2 r /\ cache_coherent st'.
Proof.
  intros Hcache Hi Ho. unfold compute_impact.
  destruct (energy_defined (p_model p) _ _ Hi Ho) as [e ->].
  pose proof (intensity_converts (carbon_service st) (net w) (p_location p)) as [x Hx].
  destruct (carbon_intensity.get_carbon_intensity _ _ _) as [ci service].
  cbn [fst] in Hx. rewrite Hx.
  set (co2 := fmul (fdiv e (of_Z 1000)) x).
  destruct (tree_equivalent_text_defined (fdiv co2 (of_Z 50)) (fdiv_bounded _ _))
    as [text Htext].
  unfold format_environmental_response. cbn [default from_option id
    data_energy_wh data_co2_emissions_g data_carbon_intensity_g_kwh data_tree_equivalent].
  rewrite Hx. cbn [bind to_float]. rewrite Htext. cbn [bind].
  eexists _, _. split; [reflexivity|].
  assert (forall r', tree_equivalent r' = round_ndigits (fdiv co2 (of_Z 50)) 3 ->
                     co2_emissions_g r' = round_ndigits co2 6 -> tree_from_co2 r') as Hrel.
  { intros r' Ht Hc. by exists co2. }
  split; [by apply Hrel|].
  unfold cache_coherent. cbn [cache_dict]. apply cache_result_Forall; [done|].
  by apply Hrel.
Qed.

(** A handler answers with status 400 or 500 when it answers with a status. *)
Lemma calculate_impact_status w st data b status st' :
  calculate_impact w st data = (WithStatus b status, st') -> status = 400 \/ status = 500.
Proof.
  unfold calculate_impact, internal_error, compute_impact.
  repeat match goal with
         | |- context [if ?c then _ else _] => destruct c
         | |- context [match ?x with _ => _ end] => destruct x
         end; intros [= <- <- <-]; auto.
Qed.

Lemma process_record_is_error w st i record :
  exists msg, fst (process_record w st i record) = ErrorBody msg.
Proof.
  unfold process_record.
  destruct (validate_request_data _ record) as [[message|]|e]; [by eexists| |by eexists].
  destruct (calculate_impact w st record) as [[b|b status] st'] eqn:Hc; cbn [status_of].
  - by eexists.
  - apply calculate_impact_status in Hc as [-> | ->]; by eexists.
Qed.

Lemma process_records_length w st i records :
  length (fst (process_records w st i records)) = length records.
Proof.
  revert st i. induction records as [|record records IH]; intros st i; [done|].
  cbn [process_records].
  destruct (process_record (w i) st i record) as [entry st1].
  specialize (IH st1 (S i)).
  destruct (process_records w st1 (S i) records) as [entries st2].
  cbn [fst length] in *. by rewrite IH.
Qed.

Lemma process_records_are_errors w st i records :
  Forall (fun entry => exists msg, entry = ErrorBody msg)
         (fst (process_records w st i records)).
Proof.
  revert st i. induction records as [|record records IH]; intros st i; [by constructor|].
  cbn [process_records].
  pose proof (process_record_is_error (w i) st i record) as Hentry.
  destruct (process_record (w i) st i record) as [entry st1].
  specialize (IH st1 (S i)).
  destruct (process_records w st1 (S i) records) as [entries st2].
  cbn [fst] in *. by constructor.
Qed.

End AppFacts.

Module AppClaims.
Import Py app utils AppFacts CacheFacts ValidatorFacts Examples FloatSpec ValidatorSpec CacheSpec AppSpec.

(** C2 (amended).  A request that passes validation is answered with an
    ImpactResult whose [tree_equivalent] is [co2 / 50.0] rounded to 3
    decimals, where [co2] is the CO2 value whose rounding to 6 decimals is the
    result's [co2_emissions_g]; this holds from every state whose cache holds
    only such results, and the cache holds only such results afterwards. *)
Theorem valid_request_tree_equivalent w st data :
  cache_coherent st ->
  validate_request_data (fromisoformat w) data = Ok None ->
  exists r st',
    calculate_impact w st data = (Response (ImpactBody (Formatted r)), st')
    /\ tree_from_co2 r /\ cache_coherent st'.
Proof.
  intros Hcache Hvalid.
  destruct (valid_is_dict _ _ Hvalid) as [record ->].
  destruct (valid_dict_shape _ _ Hvalid) as (model & it & ot & Hm & _).
  destruct (valid_request_reads w record Hvalid) as (p & Hp & Hi & Ho).
  unfold calculate_impact.
  rewrite (dict_with_key_truthy _ _ _ Hm), Hvalid, Hp. cbn [negb].
  unfold get_cached_result.
  destruct (oget (p_cache_key p) (cache_dict st)) as [cached|] eqn:Hhit.
  - pose proof (oget_Forall coherent _ _ _ Hcache Hhit) as Hc.
    destruct cached as [r|]; [|done]. by exists r, st.
  - by apply compute_impact_coherent.
Qed.

Lemma valid_request_tree_equivalent_witness :
  exists r st',
    calculate_impact example_world initial_state example_request
    = (Response (ImpactBody (Formatted r)), st')
    /\ tree_from_co2 r /\ cache_coherent st'.
Proof.
  apply (valid_request_tree_equivalent example_world initial_state example_request).
  - apply Forall_nil_2.
  - vm_compute. reflexivity.
Defined.

(** C2 as stated fails: for the request of the end-to-end example the
    returned [tree_equivalent] is 0.001, which equals neither the returned
    [co2_emissions_g] divided by 50 nor the unrounded CO2 divided by 50. *)
Lemma returned_tree_equivalent_is_rounded :
  match fst (calculate_impact example_world initial_state example_request) with
  | Response (ImpactBody (Formatted r)) =>
      co2_emissions_g r = S754_finite false 8827055269646172 (-57)
      /\ tree_equivalent r = S754_finite false 4611686018427388 (-62)
      /\ feq (tree_equivalent r) (fdiv (co2_emissions_g r) (of_Z 50)) = false
      /\ feq (tree_equivalent r)
             (fdiv (S754_finite false 8827055269646173 (-57)) (of_Z 50)) = false
  | _ => False
  end.
Proof. vm_compute. repeat split. Qed.

(** The end-to-end example: 150 and 500 tokens of claude-3-5-sonnet-20241022
    at "us-west-1" give 0.175 Wh, 0.06125 g at 350 gCO2/kWh, and a
    tree equivalent of 0.001. *)
Example end_to_end_response :
  fst (calculate_impact example_world initial_state example_request)
  = Response (ImpactBody (Formatted
      {| energy_wh := literal 175 1000;
         co2_emissions_g := literal 6125 100000;
         carbon_intensity_g_kwh := of_Z 350;
         tree_equivalent := literal 1 1000;
         equivalent_text := "less than 1% of what a tree absorbs daily";
         source := JStr "custom_ecologits_inspired";
         location := JStr "us-west-1";
         timestamp := JStr "2025-06-25T10:30:00Z";
         additional_equivalents :=
           {| phone_charges := Float (literal 1 100);
              miles_driven := Float fzero;
              led_hours := Float (literal 1 10);
              laptop_hours := Float fzero |} |})).
Proof. vm_compute. reflexivity. Qed.

(** C6 (the code at the failing input).  A batch of the valid example
    request and a record without "model" yields two error entries: the valid
    record's slot holds the [TypeError] of subscripting a [Response], not a
    result.  In every batch there is one entry per record, and every entry is
    an error entry. *)
Theorem batch_of_valid_and_invalid_record :
  fst (batch_calculate (fun _ => example_world) initial_state
         (Some [example_request; record_without_model]))
  = Results [ ErrorBody "Record 0: 'Response' object is not subscriptable";
              ErrorBody "Record 1: Missing required field: model" ]
  /\ forall w st records,
       length (fst (process_records w st 0 records)) = length records
       /\ Forall (fun entry => exists msg, entry = ErrorBody msg)
                 (fst (process_records w st 0 records)).
Proof.
  split; [vm_compute; reflexivity|].
  intros w st records. split; [apply process_records_length|apply process_records_are_errors].
Qed.

End AppClaims.

Module CalculatorExtras.
Import Py ecologits_calculator FloatSpec FloatFacts FloatExact OdictFacts SessionSpec.

Lemma table_profile_family name profile :
  In (name, profile) model_profiles -> In (constants profile) family_constants.
Proof.
  intros H. vm_compute in H.
  repeat destruct H as [H|H]; try contradiction; inversion H; subst;
    vm_compute; auto.
Qed.

(** Whatever the model id, the resolved profile carries the constants of
    the haiku, the opus or the sonnet family. *)
Lemma every_model_resolves_to_a_family (model : string) :
  In (constants (_get_model_profile model)) family_constants.
Proof.
  unfold _get_model_profile.
  destruct (oget model model_profiles) as [profile|] eqn:Hexact.
  - apply oget_In in Hexact. by eapply table_profile_family.
  - destruct (List.find _ model_profiles) as [[name profile]|] eqn:Hfind.
    + apply find_some in Hfind as [Hin _]. by eapply table_profile_family.
    + repeat match goal with |- context [if ?c then _ else _] => destruct c end;
        vm_compute; auto.
Qed.

Lemma family_constants_positive a b c :
  In (a, b, c) family_constants ->
  (signed_as false a /\ is_finite a) /\ (signed_as false b /\ is_finite b)
  /\ signed_as false c.
Proof.
  intros H. vm_compute in H.
  repeat destruct H as [H|H]; try contradiction; inversion H; subst; vm_compute; auto.
Qed.

(** X1.  For every model id, known or not, and token counts from 0 up to
    2^53, the energy calculation returns the formula's value for the resolved
    profile, and that value is [>= 0]. *)
Theorem energy_defined_for_every_model (model : string) (input_tokens output_tokens : Z) :
  0 <= input_tokens < 2 ^ 53 -> 0 <= output_tokens < 2 ^ 53 ->
  let profile := _get_model_profile model in
  let energy :=
    fadd (fadd (fmul (of_Z input_tokens) (energy_per_input_token profile))
               (fmul (of_Z output_tokens) (energy_per_output_token profile)))
         (base_energy profile) in
  calculate_energy_consumption model input_tokens output_tokens = Ok energy
  /\ fle fzero energy = true.
Proof.
  intros Hi Ho profile energy. split.
  - unfold calculate_energy_consumption, int_times_float.
    rewrite !float_of_int_small by done. reflexivity.
  - pose proof (every_model_resolves_to_a_family model) as Hfam. fold profile in Hfam.
    destruct (family_constants_positive _ _ _ Hfam) as ((Ha & Hfa) & (Hb & Hfb) & Hc).
    destruct (float_of_int_ok _ _ (proj1 Hi) (float_of_int_small _ Hi)) as [Hsx Hfx].
    destruct (float_of_int_ok _ _ (proj1 Ho) (float_of_int_small _ Ho)) as [Hsy Hfy].
    apply nonneg_of_sign. subst energy.
    repeat first [apply fadd_sign | apply fmul_sign]; assumption.
Qed.

(** The same, as an existence statement for the proofs that follow. *)
Lemma energy_signed_for_every_model (model : string) (input_tokens output_tokens : Z) :
  0 <= input_tokens < 2 ^ 53 -> 0 <= output_tokens < 2 ^ 53 ->
  exists energy,
    calculate_energy_consumption model input_tokens output_tokens = Ok energy
    /\ signed_as false energy.
Proof.
  intros Hi Ho. eexists. split.
  - unfold calculate_energy_consumption, int_times_float.
    rewrite !float_of_int_small by done. reflexivity.
  - pose proof (every_model_resolves_to_a_family model) as Hfam.
    destruct (family_constants_positive _ _ _ Hfam) as ((Ha & Hfa) & (Hb & Hfb) & Hc).
    destruct (float_of_int_ok _ _ (proj1 Hi) (float_of_int_small _ Hi)) as [Hsx Hfx].
    destruct (float_of_int_ok _ _ (proj1 Ho) (float_of_int_small _ Ho)) as [Hsy Hfy].
    repeat first [apply fadd_sign | apply fmul_sign]; assumption.
Qed.

Lemma energy_defined_for_every_model_witness :
  calculate_energy_consumption "gpt-4" 10 20
  = Ok (S754_finite false 4899916394579100 (-58))
  /\ fle fzero (S754_finite false 4899916394579100 (-58)) = true.
Proof.
  apply (energy_defined_for_every_model "gpt-4" 10 20); split; (lia || reflexivity).
Defined.

(** X2.  The efficiency rating of every model id is decided by its family:
    "highly_efficient" for the haiku constants, "moderate" for the opus ones,
    "efficient" for the sonnet ones; no model id is rated "intensive". *)
Theorem efficiency_rating_by_family (model : string) :
  (constants (_get_model_profile model) = constants _get_haiku_profile
   /\ get_model_efficiency_rating model = "highly_efficient")
  \/ (constants (_get_model_profile model) = constants _get_opus_profile
      /\ get_model_efficiency_rating model = "moderate")
  \/ (constants (_get_model_profile model) = constants _get_sonnet_profile
      /\ get_model_efficiency_rating model = "efficient").
Proof.
  pose proof (every_model_resolves_to_a_family model) as Hfam.
  unfold get_model_efficiency_rating.
  destruct (_get_model_profile model) as [n a b c src].
  unfold family_constants, constants in *. cbn [energy_per_input_token energy_per_output_token
    base_energy] in *.
  destruct Hfam as [H|[H|[H|[]]]]; inversion H; subst.
  - left. split; [exact H|]. vm_compute. reflexivity.
  - right. left. split; [exact H|]. vm_compute. reflexivity.
  - right. right. split; [exact H|]. vm_compute. reflexivity.
Qed.

End CalculatorExtras.

Module SessionExtras.
Import Py ecologits_calculator FloatSpec FloatFacts FloatExact OdictFacts CalculatorExtras SessionSpec.

(** A positive integer below 2^53 converts to a positive finite float. *)
Lemma of_Z_small_positive z :
  0 < z < 2 ^ 53 -> exists m e, of_Z z = S754_finite false m e.
Proof.
  intros [Hz Hlt]. unfold of_Z, binary_normalize. destruct z as [|p|p]; [lia| |lia].
  pose proof (digits2_pos_small p Hlt) as Hd.
  unfold binary_round.
  destruct (shl_align p 0 (fexp prec emax (Zpos (digits2_pos p) + 0))) as [mz ez] eqn:Hal.
  assert (Zpos (digits2_pos mz) = 53 /\ -52 <= ez <= 0) as (Hmz & Hez).
  { unfold shl_align, fexp, emin, prec, emax in Hal.
    replace (Z.max (Zpos (digits2_pos p) + 0 - 53) (3 - 1024 - 53))
      with (Zpos (digits2_pos p) - 53) in Hal by lia.
    destruct (Zpos (digits2_pos p) - 53 - 0) as [|d|d] eqn:Hdiff;
      inversion Hal; subst; try lia.
    rewrite digits2_pos_iter_xO. lia. }
  unfold binary_round_aux, shr_fexp, Zdigits2.
  assert (fexp prec emax (Zpos (digits2_pos mz) + ez) - ez = 0) as ->.
  { unfold fexp, emin, prec, emax. lia. }
  simpl. rewrite Hmz.
  assert (fexp prec emax (53 + ez) - ez = 0) as ->.
  { unfold fexp, emin, prec, emax. lia. }
  simpl. destruct (ez <=? emax - prec) eqn:Hle; [by eexists _, _|].
  apply Z.leb_gt in Hle. unfold emax, prec in Hle. lia.
Qed.

Lemma sum_sessions_spec sessions total_energy total_tokens :
  Forall counts_in_range sessions -> signed_as false total_energy ->
  exists energy,
    sum_sessions sessions total_energy total_tokens
    = Ok (energy, total_tokens + token_sum sessions)
    /\ signed_as false energy.
Proof.
  intros Hall. revert total_energy total_tokens.
  induction Hall as [|s sessions [Hi Ho] Hall IH]; intros total_energy total_tokens Hsign.
  - exists total_energy. cbn. split; [f_equal; f_equal; lia|done].
  - cbn [sum_sessions].
    destruct (energy_signed_for_every_model
                (default "claude-3-5-sonnet-20241022" (session_model s)) _ _ Hi Ho)
      as (energy & -> & He).
    cbn [bind].
    destruct (IH (fadd total_energy energy)
                 (total_tokens + (default 0 (session_input_tokens s)
                                  + default 0 (session_output_tokens s))))
      as (e & -> & Hes); [by apply fadd_sign|].
    exists e. split; [|done].
    change (token_sum (s :: sessions)) with (session_tokens s + token_sum sessions).
    unfold session_tokens. f_equal. f_equal. lia.
Qed.

(** X3.  For sessions whose counts are from 0 up to 2^53 and sum to less than
    2^53, [estimate_session_impact] returns: it counts the sessions, adds up
    their tokens, reports an energy [>= 0], and reports the average 0.0 when
    there are no tokens, so it never divides by zero. *)
Theorem session_impact_totals (sessions : list session) :
  Forall counts_in_range sessions -> token_sum sessions < 2 ^ 53 ->
  exists impact,
    estimate_session_impact sessions = Returns impact
    /\ sessions_count impact = length sessions
    /\ total_tokens impact = token_sum sessions
    /\ fle fzero (total_energy_wh impact) = true
    /\ (token_sum sessions = 0 -> average_energy_per_token impact = fzero).
Proof.
  intros Hall Hsum. unfold estimate_session_impact.
  destruct (sum_sessions_spec sessions fzero 0 Hall eq_refl) as (energy & -> & Hsign).
  cbn [lift obind]. rewrite Z.add_0_l.
  destruct (Z.ltb_spec 0 (token_sum sessions)) as [Hpos|Hzero].
  - unfold float_div_int. rewrite float_of_int_small by lia.
    destruct (of_Z_small_positive (token_sum sessions)) as (m & e & ->); [lia|].
    cbn [lift obind]. eexists. split; [reflexivity|]. cbn.
    repeat split; try done; [by apply nonneg_of_sign|lia].
  - cbn [obind]. eexists. split; [reflexivity|]. cbn.
    repeat split; try done. by apply nonneg_of_sign.
Qed.

Lemma session_impact_totals_witness :
  exists impact,
    estimate_session_impact
      [ {| session_model := Some "claude-3-opus-20240229";
           session_input_tokens := Some 100; session_output_tokens := Some 50 |};
        {| session_model := None; session_input_tokens := None;
           session_output_tokens := Some 7 |} ]
    = Returns impact
    /\ sessions_count impact = 2%nat
    /\ total_tokens impact = 157
    /\ fle fzero (total_energy_wh impact) = true
    /\ (157 = 0 -> average_energy_per_token impact = fzero).
Proof.
  apply (session_impact_totals
           [ {| session_model := Some "claude-3-opus-20240229";
                session_input_tokens := Some 100; session_output_tokens := Some 50 |};
             {| session_model := None; session_input_tokens := None;
                session_output_tokens := Some 7 |} ]).
  - repeat constructor; cbn; lia.
  - reflexivity.
Defined.

End SessionExtras.

Module CarbonExtras.
Import Py carbon_intensity PyFacts OdictFacts CarbonFacts CarbonSpec FloatSpec.

Lemma usable_value (intensity : option float) :
  usable intensity = true -> float_truthy (default fzero intensity) = true.
Proof. by destruct intensity. Qed.

(** X4.  Whatever the service's credentials, the providers' answers and the
    location (a string or not), [get_carbon_intensity] never yields zero: a
    provider's value is used only when it is not zero, and the value taken
    from the table otherwise is an integer from 1 to 500. *)
Theorem carbon_intensity_never_zero self net (location : json) :
  match fst (get_carbon_intensity self net location) with
  | Int z => 0 < z <= 500
  | Float f => float_truthy f = true
  end.
Proof.
  destruct location as [| | | |s| |].
  1-4, 6-7: vm_compute; split; [reflexivity|discriminate].
  unfold get_carbon_intensity. set (n := _normalize_location s).
  destruct (usable (if set_and_nonempty (electricity_maps_token self)
                    then _get_electricity_maps_intensity self net n else None)) eqn:Hmaps.
  - cbn [fst]. by apply usable_value.
  - destruct (if startswith n "us-" && set_and_nonempty (watt_time_username self)
              then _get_watt_time_intensity self net n else (None, self))
      as [from_watt self'].
    destruct (usable from_watt) eqn:Hwatt; cbn [fst].
    + by apply usable_value.
    + apply fallback_intensity_positive.
Qed.

Lemma watt_time_frame self net location :
  let self' := snd (_get_watt_time_intensity self net location) in
  self' = with_watt_time_token self (watt_time_token self')
  /\ (set_and_nonempty (watt_time_token self) = true -> self' = self).
Proof.
  unfold _get_watt_time_intensity.
  destruct (set_and_nonempty (watt_time_token self)) eqn:Htoken; cbn [negb].
  - rewrite Htoken. cbn [negb].
    repeat match goal with
           | |- context [match ?o with _ => _ end] => destruct o
           end; cbn [snd]; split; try done; by destruct self.
  - repeat match goal with
           | |- context [if ?b then _ else _] => destruct b
           | |- context [match ?o with _ => _ end] => destruct o
           end; cbn [snd]; split; done.
Qed.

(** X5.  A call of [get_carbon_intensity] never alters the service's
    credentials; the only field it may set is the cached WattTime token, and
    it leaves the whole service as it was when a non-empty token is already
    cached or when the normalized location does not start with "us-". *)
Theorem carbon_service_credentials_kept self net (location : json) :
  let self' := snd (get_carbon_intensity self net location) in
  electricity_maps_token self' = electricity_maps_token self
  /\ watt_time_username self' = watt_time_username self
  /\ watt_time_password self' = watt_time_password self
  /\ (set_and_nonempty (watt_time_token self) = true -> self' = self)
  /\ (forall s, location = JStr s ->
                startswith (_normalize_location s) "us-" = false -> self' = self).
Proof.
  destruct location as [| | | |s| |].
  1-4, 6-7: cbn [get_carbon_intensity snd]; repeat split; done.
  unfold get_carbon_intensity. set (n := _normalize_location s).
  destruct (usable (if set_and_nonempty (electricity_maps_token self)
                    then _get_electricity_maps_intensity self net n else None));
    [cbn [snd]; repeat split; done|].
  destruct (startswith n "us-" && set_and_nonempty (watt_time_username self)) eqn:Hus.
  - destruct (watt_time_frame self net n) as [Hframe Hkept].
    destruct (_get_watt_time_intensity self net n) as [from_watt self'].
    cbn [snd] in Hframe, Hkept.
    assert (snd (if usable from_watt
                 then (Float (default fzero from_watt), self')
                 else (Int (_get_fallback_intensity n), self')) = self') as ->
      by (by destruct (usable from_watt)).
    rewrite Hframe. cbn [with_watt_time_token electricity_maps_token watt_time_username
      watt_time_password]. repeat split; try done.
    + intros Htoken. rewrite <- Hframe. by apply Hkept.
    + intros s' [= <-] Hnot. fold n in Hnot. by rewrite Hnot in Hus.
  - cbn [snd]. repeat split; done.
Qed.

(** The values of the fallback table. *)
Lemma fallback_intensity_values (location : string) :
  In (_get_fallback_intensity location) [300; 350; 380; 400; 420; 450; 500].
Proof.
  unfold _get_fallback_intensity.
  destruct (regional_fallbacks !! location) as [z|] eqn:H; cbn [default].
  - apply elem_of_list_to_map_2 in H.
    list_cases H; inversion H; subst; cbn; tauto.
  - vm_compute. tauto.
Qed.

Lemma location_mapping_not_in_table (k r : string) :
  location_mapping !! k = Some r -> regional_fallbacks !! k = None.
Proof.
  intros H. apply elem_of_list_to_map_2 in H.
  list_cases H; inversion H; subst; vm_compute; reflexivity.
Qed.

(** X6.  For every location [estimate_daily_variation] returns, and its five
    values are strictly ordered: midday low < night low < base < morning
    peak < evening peak, the base being one of the table's values.  The
    location is looked up as given: an alias of [location_mapping] (such as
    "california") gets the default base 400, not its region's value. *)
Theorem daily_variation_ordered (location : string) :
  exists dv,
    estimate_daily_variation location = Ok dv
    /\ In (base_intensity dv) [300; 350; 380; 400; 420; 450; 500]
    /\ flt (midday_low dv) (night_low dv) = true
    /\ flt (night_low dv) (of_Z (base_intensity dv)) = true
    /\ flt (of_Z (base_intensity dv)) (morning_peak dv) = true
    /\ flt (morning_peak dv) (evening_peak dv) = true
    /\ (forall region, location_mapping !! location = Some region -> base_intensity dv = 400).
Proof.
  unfold estimate_daily_variation.
  pose proof (fallback_intensity_values location) as Hbase.
  assert (forall region, location_mapping !! location = Some region ->
                         _get_fallback_intensity location = 400) as Halias.
  { intros region Hr. apply fallback_intensity_default.
    by eapply location_mapping_not_in_table. }
  revert Hbase Halias. generalize (_get_fallback_intensity location). intros base Hbase Halias.
  cbn in Hbase.
  destruct Hbase as [<-|[<-|[<-|[<-|[<-|[<-|[<-|[]]]]]]]];
    (eexists; split; [vm_compute; reflexivity|]);
    cbn [base_intensity midday_low night_low morning_peak evening_peak];
    repeat split; try (vm_compute; tauto); try (vm_compute; reflexivity); exact Halias.
Qed.

End CarbonExtras.

Module LruFacts.
Import Py.

Section store.
Context {V : Type}.
Implicit Types (d : odict V).


Lemma oget_last k (v : V) d : ~ In k (okeys d) -> oget k (d ++ [(k, v)])%list = Some v.
Proof.
  unfold okeys. induction d as [|[k' v'] d IH]; simpl; intros Hk.
  - by rewrite String.eqb_refl.
  - destruct (String.eqb k k') eqn:Heq.
    + apply String.eqb_eq in Heq. subst. exfalso. apply Hk. by left.
    + apply IH. intros Hin. apply Hk. by right.
Qed.








End store.

End LruFacts.

Module LruExtras.
Import Py carbon_intensity LruFacts.



End LruExtras.

Module FloatNonzero.
Import Py FloatFacts FloatExact FloatBounds FloatSpec.

Lemma Zdigits2_mono m m' : 0 <= m <= m' -> Zdigits2 m <= Zdigits2 m'.
Proof.
  intros [Hm Hle]. apply Zdigits2_le; [|apply Zdigits2_nonneg].
  pose proof (Zdigits2_upper m' ltac:(lia)). lia.
Qed.

Lemma Zdigits2_pos m : 0 < m -> 0 < Zdigits2 m.
Proof. destruct m; simpl; lia. Qed.

Lemma Zdigits2_zero m : 0 <= m -> 0 < Zdigits2 m -> 0 < m.
Proof. destruct m; simpl; lia. Qed.

(** A positive mantissa whose value is above the smallest subnormal keeps a
    positive mantissa and its magnitude when it is shifted to the format's
    exponent. *)
Lemma shr_fexp_positive m e l :
  0 < m -> -1074 < Zdigits2 m + e ->
  0 < shr_m (fst (shr_fexp prec emax m e l))
  /\ Zdigits2 (shr_m (fst (shr_fexp prec emax m e l))) + snd (shr_fexp prec emax m e l)
     = Zdigits2 m + e.
Proof.
  intros Hm Hmag. unfold shr_fexp, shr.
  assert (shr_m (shr_record_of_loc m l) = m) as Hrec by (by destruct l as [|[]]).
  pose proof (Zdigits2_pos m Hm) as Hd.
  assert (fexp prec emax (Zdigits2 m + e) = Z.max (Zdigits2 m + e - 53) (-1074)) as Hf
    by reflexivity.
  destruct (fexp prec emax (Zdigits2 m + e) - e) as [|n|n] eqn:Hn; cbn [fst snd].
  - rewrite Hrec. lia.
  - destruct (iter_shr_1_digits n (shr_record_of_loc m l)) as [H1 D1]; [rewrite Hrec; lia|].
    rewrite Hrec in D1. split; [apply Zdigits2_zero; [done|lia]|lia].
  - rewrite Hrec. lia.
Qed.

Lemma round_nearest_even_ge m l : 0 <= m -> m <= round_nearest_even m l.
Proof.
  intros H. unfold round_nearest_even. destruct l as [|[]]; try lia.
  destruct (Z.even m); lia.
Qed.

Lemma binary_round_aux_nonzero s m e l :
  0 < m -> -1074 < Zdigits2 m + e ->
  forall s', binary_round_aux prec emax s m e l <> S754_zero s'.
Proof.
  intros Hm Hmag s'. unfold binary_round_aux.
  destruct (shr_fexp_positive m e l Hm Hmag) as [H1 E1].
  destruct (shr_fexp prec emax m e l) as [mrs1 e1]. cbn [fst snd] in *.
  assert (0 <= shr_m mrs1) as H0 by lia.
  pose proof (round_nearest_even_ge (shr_m mrs1) (loc_of_shr_record mrs1) H0) as Hge.
  pose proof (Zdigits2_mono (shr_m mrs1) _ (conj H0 Hge)) as Hdig.
  destruct (shr_fexp_positive (round_nearest_even (shr_m mrs1) (loc_of_shr_record mrs1))
              e1 loc_Exact) as [H2 _]; [lia|lia|].
  destruct (shr_fexp prec emax _ e1 loc_Exact) as [mrs2 e2]. cbn [fst snd] in *.
  destruct (shr_m mrs2) as [|p|p]; [lia| |done].
  by destruct (e2 <=? emax - prec).
Qed.

Lemma shl_align_magnitude p e e' mz ez :
  shl_align p e e' = (mz, ez) -> Zpos (digits2_pos mz) + ez = Zpos (digits2_pos p) + e.
Proof.
  unfold shl_align. destruct (e' - e) as [|d|d] eqn:Hd; intros [= <- <-]; try done.
  rewrite digits2_pos_iter_xO. lia.
Qed.

(** The float of a positive integer is never a zero. *)
Lemma of_Z_positive_nonzero z : 0 < z -> forall s, of_Z z <> S754_zero s.
Proof.
  intros Hz s. unfold of_Z, binary_normalize. destruct z as [|p|p]; [lia| |lia].
  unfold binary_round.
  destruct (shl_align p 0 (fexp prec emax (Zpos (digits2_pos p) + 0))) as [mz ez] eqn:Hal.
  apply shl_align_magnitude in Hal.
  apply binary_round_aux_nonzero; [lia|]. simpl Zdigits2. lia.
Qed.

End FloatNonzero.

Module FloatOrder.
Import Py.

(** [<=] on floats is transitive. *)
Lemma fle_trans x y z : fle x y = true -> fle y z = true -> fle x z = true.
Proof.
  unfold fle, SFleb, SFcompare.
  destruct x as [sx|sx| |sx mx ex], y as [sy|sy| |sy my ey], z as [sz|sz| |sz mz ez];
    try done;
    repeat match goal with s : bool |- _ => destruct s end; try done;
    repeat match goal with
           | |- context [(?a ?= ?b)%Z] => destruct (Z.compare_spec a b)
           | |- context [PosDef.Pos.compare_cont Eq ?a ?b] =>
               change (PosDef.Pos.compare_cont Eq a b) with (a ?= b)%positive;
               destruct (Pos.compare_spec a b)
           end; cbn; try done; try lia.
Qed.

End FloatOrder.

Module UtilsFacts.
Import Py utils PyFacts.







Lemma prefix_app p s t : String.prefix p ((p +:+ s) +:+ t) = true.
Proof.
  induction p as [|c p IH]; simpl; [by destruct (_ +:+ _)|].
  destruct (ascii_dec c c); [exact IH|done].
Qed.

Lemma to_float_raises n e : to_float n = Raise e -> exists msg, e = OverflowError msg.
Proof.
  destruct n as [z|f]; [|done]. unfold to_float, float_of_int.
  destruct (of_Z z); try done. intros [= <-]. by eexists.
Qed.

Lemma num_times_raises n x e : num_times n x = Raise e -> exists msg, e = OverflowError msg.
Proof.
  unfold num_times. destruct (to_float n) eqn:H; [done|].
  intros [= <-]. by eapply to_float_raises.
Qed.

Lemma comparison_sentence_raises efficiency comparison_data e :
  comparison_sentence efficiency comparison_data = Raise e -> exists msg, e = OverflowError msg.
Proof.
  unfold comparison_sentence. destruct comparison_data as [data|]; [|done].
  destruct (map_to_list data); [done|].
  destruct (num_positive _); [|done].
  destruct (num_times _ (literal 8 10)) as [low|e1] eqn:Hlow; cbn [bind].
  - destruct (flt efficiency low); [done|].
    destruct (num_times _ (literal 12 10)) as [high|e2] eqn:Hhigh; cbn [bind].
    + by destruct (flt high efficiency).
    + intros [= <-]. by eapply num_times_raises.
  - intros [= <-]. by eapply num_times_raises.
Qed.

End UtilsFacts.

Module UtilsExtras.
Import Py utils carbon_intensity PyFacts CarbonFacts CarbonSpec UtilsFacts FloatNonzero FloatOrder RatingSpec.

Lemma valid_locations_closed (location : string) :
  In location valid_locations ->
  validate_location (JStr location) = location
  /\ In (_normalize_location location) canonical_regions.
Proof.
  intros H. unfold valid_locations in H. cbn [In] in H.
  repeat destruct H as [<-|H]; try contradiction;
    (split; [vm_compute; reflexivity | vm_compute; tauto]).
Qed.

Lemma validate_location_valid (location : json) :
  In (validate_location location) valid_locations.
Proof.
  destruct location as [| | | |s| |].
  1-4, 6-7: cbn [validate_location]; unfold valid_locations; cbn [In]; tauto.
  unfold validate_location.
  destruct (existsb (String.eqb (lower (strip s))) valid_locations) eqn:Hfound.
  - apply existsb_exists in Hfound as (v & Hin & Heq).
    apply String.eqb_eq in Heq. by rewrite Heq.
  - unfold valid_locations; cbn [In]; tauto.
Qed.

(** X8.  Whatever it is given (a string or not), [validate_location] returns
    one of its sixteen valid locations; validating the result again changes
    nothing; and the carbon service normalizes the result to one of the
    eight canonical regions, each of which has its own entry in the fallback
    table. *)
Theorem validated_location_is_known (location : json) :
  In (validate_location location) valid_locations
  /\ validate_location (JStr (validate_location location)) = validate_location location
  /\ In (_normalize_location (validate_location location)) canonical_regions
  /\ exists intensity,
       regional_fallbacks !! _normalize_location (validate_location location)
       = Some intensity.
Proof.
  pose proof (validate_location_valid location) as Hin.
  destruct (valid_locations_closed _ Hin) as [Hfix Hcanon].
  repeat split; try done.
  revert Hcanon. generalize (_normalize_location (validate_location location)).
  intros region Hcanon. unfold canonical_regions in Hcanon. cbn [In] in Hcanon.
  repeat destruct Hcanon as [<-|Hcanon]; try contradiction;
    eexists; vm_compute; reflexivity.
Qed.


(** X10.  The efficiency rating is monotone: when [x <= y] as floats, the
    rating of [x] is at least as good as the rating of [y]. *)
Theorem efficiency_rating_monotone (x y : float) :
  fle x y = true ->
  (grade (calculate_efficiency_rating x) <= grade (calculate_efficiency_rating y))%nat.
Proof.
  intros Hxy. unfold calculate_efficiency_rating.
  pose proof (fle_trans x y (literal 1 10000) Hxy) as H1.
  pose proof (fle_trans x y (literal 5 10000) Hxy) as H2.
  pose proof (fle_trans x y (literal 1 1000) Hxy) as H3.
  pose proof (fle_trans x y (literal 2 1000) Hxy) as H4.
  destruct (fle y (literal 1 10000)); [by rewrite H1|].
  destruct (fle y (literal 5 10000));
    [rewrite H2 by done; destruct (fle x (literal 1 10000)); cbn; lia|].
  destruct (fle y (literal 1 1000));
    [rewrite H3 by done; destruct (fle x (literal 1 10000)), (fle x (literal 5 10000));
     cbn; lia|].
  destruct (fle y (literal 2 1000));
    [rewrite H4 by done;
     destruct (fle x (literal 1 10000)), (fle x (literal 5 10000)), (fle x (literal 1 1000));
     cbn; lia|].
  destruct (fle x (literal 1 10000)), (fle x (literal 5 10000)), (fle x (literal 1 1000)),
    (fle x (literal 2 1000)); cbn; lia.
Qed.

Lemma efficiency_rating_monotone_witness :
  (grade (calculate_efficiency_rating (literal 3 10000))
   <= grade (calculate_efficiency_rating (literal 15 10000)))%nat.
Proof.
  apply (efficiency_rating_monotone (literal 3 10000) (literal 15 10000)).
  vm_compute. reflexivity.
Defined.

(** X11.  [generate_environmental_insight] never divides by zero: without
    output tokens it returns its fixed sentence, and with a positive count it
    either returns a text that starts with "Environmental efficiency: " or
    raises the [OverflowError] of an integer too large for a float, whatever
    the CO2 value ([nan] and infinities included) and the comparison data
    ([None] or a dict of numbers). *)
Theorem insight_never_divides_by_zero
  (co2_grams : float) (output_tokens : Z) (comparison_data : option (gmap string num)) :
  (output_tokens <= 0 ->
   generate_environmental_insight co2_grams output_tokens comparison_data
   = Returns "No output tokens generated.")
  /\ (0 < output_tokens ->
      match generate_environmental_insight co2_grams output_tokens comparison_data with
      | Returns text => startswith text "Environmental efficiency: " = true
      | Raises e => exists msg, e = Exn (OverflowError msg)
      end).
Proof.
  unfold generate_environmental_insight. split; intros Hn.
  - apply Z.leb_le in Hn. by rewrite Hn.
  - assert ((output_tokens <=? 0) = false) as -> by (apply Z.leb_gt; lia).
    unfold float_div_int, float_of_int.
    pose proof (of_Z_positive_nonzero output_tokens Hn) as Hnz.
    destruct (of_Z output_tokens) as [s|s| |s m e] eqn:Hd; cbn [lift obind].
    + by destruct (Hnz s).
    + by eexists.
    + destruct (comparison_sentence _ comparison_data) as [text|e] eqn:Hc; cbn [lift obind].
      * apply prefix_app.
      * apply comparison_sentence_raises in Hc as [msg ->]. by eexists.
    + destruct (comparison_sentence _ comparison_data) as [text|e'] eqn:Hc; cbn [lift obind].
      * apply prefix_app.
      * apply comparison_sentence_raises in Hc as [msg ->]. by eexists.
Qed.

End UtilsExtras.

Module ServiceFacts.
Import Py app utils OdictFacts CacheFacts LruFacts AppFacts ValidatorFacts.

Section lookup.
Context {V : Type}.
Implicit Types (cache : odict V).

Lemma oget_oset k (v : V) cache : oget k (oset k v cache) = Some v.
Proof.
  induction cache as [|[k' v'] cache IH]; simpl.
  - by rewrite String.eqb_refl.
  - destruct (String.eqb k k') eqn:Heq; simpl; by rewrite Heq.
Qed.

Lemma oset_present k (v : V) cache :
  In k (okeys cache) -> length (oset k v cache) = length cache.
Proof.
  unfold okeys. induction cache as [|[k' v'] cache IH]; simpl; [done|].
  destruct (String.eqb k k') eqn:Heq; [done|].
  intros [Hk|Hin]; [subst; by rewrite String.eqb_refl in Heq|].
  simpl. by rewrite IH.
Qed.

Lemma okeys_skipn k n cache : In k (okeys (skipn n cache)) -> In k (okeys cache).
Proof.
  unfold okeys. rewrite <- skipn_map. intros H.
  rewrite <- (firstn_skipn n (map fst cache)). apply in_or_app. by right.
Qed.

(** What was just stored is found, as long as the cache was within its bound. *)
Lemma cache_result_lookup k (v : V) cache :
  (length cache <= 1000)%nat -> oget k (cache_result cache k v) = Some v.
Proof.
  intros Hlen. rewrite cache_result_eq.
  destruct (in_dec string_dec k (okeys cache)) as [Hin|Hout].
  - rewrite (oset_present k v cache Hin).
    destruct (Nat.ltb_spec 1000 (length cache)); [lia|]. apply oget_oset.
  - rewrite (oset_fresh k v cache Hout).
    destruct (1000 <? _)%nat eqn:Hfull; [|by apply oget_last].
    apply Nat.ltb_lt in Hfull. rewrite length_app in Hfull. cbn [length] in Hfull.
    rewrite <- skipn_app_short by lia.
    apply oget_last. intros Hin. by apply Hout, (okeys_skipn k 200).
Qed.

End lookup.

Lemma compute_impact_outcome w st p :
  (exists r service,
     compute_impact w st p
     = (Response (ImpactBody r),
        {| cache_dict := cache_result (cache_dict st) (p_cache_key p) r;
           carbon_service := service |}))
  \/ (exists service,
        compute_impact w st p
        = (WithStatus (ErrorBody "Internal server error") 500,
           {| cache_dict := cache_dict st; carbon_service := service |})).
Proof.
  unfold compute_impact, internal_error.
  destruct (ecologits_calculator.calculate_energy_consumption _ _ _) as [energy|e].
  - destruct (carbon_intensity.get_carbon_intensity _ _ _) as [intensity service].
    destruct (to_float intensity) as [x|e].
    + left. by eexists _, _.
    + right. by eexists.
  - right. exists (carbon_service st). by destruct st.
Qed.

Lemma compute_impact_succeeds w st p :
  0 <= p_input_tokens p <= 1000000 -> 0 <= p_output_tokens p <= 1000000 ->
  exists r service,
    compute_impact w st p
    = (Response (ImpactBody r),
       {| cache_dict := cache_result (cache_dict st) (p_cache_key p) r;
          carbon_service := service |}).
Proof.
  intros Hi Ho. unfold compute_impact.
  destruct (energy_defined (p_model p) _ _ Hi Ho) as [e ->].
  pose proof (intensity_converts (carbon_service st) (net w) (p_location p)) as [x Hx].
  destruct (carbon_intensity.get_carbon_intensity _ _ _) as [ci service].
  cbn [fst] in Hx. rewrite Hx. by eexists _, _.
Qed.

(** The cache key is read from the body alone, not from the clock. *)
Lemma cache_key_clock_free w w' data p :
  read_request w data = Ok p ->
  exists p', read_request w' data = Ok p' /\ p_cache_key p' = p_cache_key p.
Proof.
  unfold read_request. destruct data as [| | | | | |record]; try done.
  unfold get_field, get_or.
  destruct (record !! "model") as [model|]; [|done].
  destruct (record !! "input_tokens") as [input_tokens|]; [|done].
  destruct (record !! "output_tokens") as [output_tokens|]; [|done].
  cbn [bind].
  destruct (interpolate model) as [model_text|]; [|done].
  destruct (interpolate input_tokens) as [input_text|]; [|done].
  destruct (interpolate output_tokens) as [output_text|]; [|done].
  cbn [bind].
  destruct (interpolate (default (JStr "us-west-1") (record !! "location")))
    as [location_text|]; [|done].
  cbn [bind].
  destruct (expect_str model) as [m|]; [|done].
  destruct (expect_int input_tokens) as [zi|]; [|done].
  destruct (expect_int output_tokens) as [zo|]; [|done].
  cbn [bind]. intros [= <-]. by eexists.
Qed.

Lemma calculate_impact_bound w st data :
  (length (cache_dict st) <= 1000)%nat ->
  (length (cache_dict (snd (calculate_impact w st data))) <= 1000)%nat.
Proof.
  intros Hlen. unfold calculate_impact, internal_error.
  destruct (negb (Json.truthy data)); [done|].
  destruct (validate_request_data _ data) as [[message|]|e]; try done.
  destruct (read_request w data) as [p|e]; [|done].
  destruct (get_cached_result _ _); [done|].
  destruct (compute_impact_outcome w st p) as [(r & service & ->)|(service & ->)];
    cbn [snd cache_dict]; [|done].
  by apply cache_result_bounded.
Qed.

Lemma process_record_bound w st i record :
  (length (cache_dict st) <= 1000)%nat ->
  (length (cache_dict (snd (process_record w st i record))) <= 1000)%nat.
Proof.
  intros Hlen. unfold process_record.
  destruct (validate_request_data _ record) as [[message|]|e]; try done.
  pose proof (calculate_impact_bound w st record Hlen) as Hb.
  destruct (calculate_impact w st record) as [response st1]. cbn [snd] in Hb.
  destruct (status_of response) as [status|e]; [|done].
  by destruct (status =? 200).
Qed.

Lemma process_records_bound w st i records :
  (length (cache_dict st) <= 1000)%nat ->
  (length (cache_dict (snd (process_records w st i records))) <= 1000)%nat.
Proof.
  revert st i. induction records as [|record records IH]; intros st i Hlen; [done|].
  cbn [process_records].
  pose proof (process_record_bound (w i) st i record Hlen) as Hb.
  destruct (process_record (w i) st i record) as [entry st1]. cbn [snd] in Hb.
  specialize (IH st1 (S i) Hb).
  by destruct (process_records w st1 (S i) records) as [entries st2].
Qed.

Lemma batch_calculate_bound w st records :
  (length (cache_dict st) <= 1000)%nat ->
  (length (cache_dict (snd (batch_calculate w st records))) <= 1000)%nat.
Proof.
  intros Hlen. unfold batch_calculate. destruct records as [records|]; [|done].
  destruct (1000 <? length records)%nat; [done|].
  pose proof (process_records_bound w st 0 records Hlen) as Hb.
  by destruct (process_records w st 0 records) as [results st1].
Qed.

End ServiceFacts.

Module ServiceExtras.
Import Py app utils OdictFacts CacheFacts AppFacts ValidatorFacts ServiceFacts Examples ServiceSpec.



(** The second request names 2026 and is answered with the result computed
    for the first, whose timestamp is of 2025. *)
Example later_request_gets_first_timestamp :
  match fst (calculate_impact later_world
               (snd (calculate_impact example_world initial_state example_request))
               later_request) with
  | Response (ImpactBody (Formatted r)) => timestamp r = JStr "2025-06-25T10:30:00Z"
  | _ => False
  end.
Proof. vm_compute. reflexivity. Qed.

(** X13.  In every state the service can reach, through any sequence of
    single and batch requests, [get_cache_stats] reports a size that does not
    exceed the maximum it reports. *)
Theorem cache_stats_within_maximum (st : state) :
  reachable st -> (fst (get_cache_stats st) <= snd (get_cache_stats st))%nat.
Proof.
  unfold get_cache_stats. cbn [fst snd].
  induction 1 as [service|w st data Hst IH|w st records Hst IH].
  - cbn. lia.
  - by apply calculate_impact_bound.
  - by apply batch_calculate_bound.
Qed.

Lemma cache_stats_within_maximum_witness :
  (fst (get_cache_stats
          (snd (batch_calculate (fun _ => example_world)
                  (snd (calculate_impact example_world initial_state example_request))
                  (Some [example_request; record_without_model]))))
   <= 1000)%nat.
Proof.
  apply (cache_stats_within_maximum
           (snd (batch_calculate (fun _ => example_world)
                   (snd (calculate_impact example_world initial_state example_request))
                   (Some [example_request; record_without_model])))).
  apply reachable_batch_calculate, reachable_calculate_impact.
  apply (reachable_start no_providers).
Defined.

(** X14.  A body that is not a JSON object is never accepted: [calculate_impact]
    answers it with an error and status 400 or 500 and leaves the state as it
    was.  The status is 500 exactly when the validator raised, as it does
    for a number, for [true], and for a string or a list that contains the
    three required field names. *)
Theorem non_object_body_rejected w st (data : json) :
  (forall record, data <> JObj record) ->
  exists msg status,
    calculate_impact w st data = (WithStatus (ErrorBody msg) status, st)
    /\ (status = 400 \/ status = 500)
    /\ (status = 500 <->
        exists e, Json.truthy data = true
                  /\ validate_request_data (fromisoformat w) data = Raise e).
Proof.
  intros Hshape. unfold calculate_impact, internal_error.
  destruct (Json.truthy data) eqn:Htruthy; cbn [negb].
  - destruct (validate_request_data (fromisoformat w) data) as [[message|]|e] eqn:Hvalid.
    + eexists _, _. split; [reflexivity|]. split; [by left|].
      split; [done|]. by intros (e & _ & He).
    + apply valid_is_dict in Hvalid as [record ->]. by destruct (Hshape record).
    + eexists _, _. split; [reflexivity|]. split; [by right|].
      split; [|done]. intros _. by exists e.
  - eexists _, _. split; [reflexivity|]. split; [by left|].
    split; [done|]. by intros (e & He & _).
Qed.

Lemma non_object_body_rejected_witness :
  exists msg status,
    calculate_impact example_world initial_state
      (JStr "model, input_tokens, output_tokens")
    = (WithStatus (ErrorBody msg) status, initial_state)
    /\ (status = 400 \/ status = 500)
    /\ (status = 500 <->
        exists e, Json.truthy (JStr "model, input_tokens, output_tokens") = true
                  /\ validate_request_data (fromisoformat example_world)
                       (JStr "model, input_tokens, output_tokens") = Raise e).
Proof.
  apply (non_object_body_rejected example_world initial_state
           (JStr "model, input_tokens, output_tokens")).
  intros record Heq. discriminate Heq.
Defined.

(** A JSON string that mentions the three field names is answered with
    status 500, not 400. *)
Example string_body_is_an_internal_error :
  fst (calculate_impact example_world initial_state
         (JStr "model, input_tokens, output_tokens"))
  = WithStatus (ErrorBody "Internal server error") 500.
Proof. vm_compute. reflexivity. Qed.

(** X15.  An answer of [calculate_impact] that carries a status is an error
    with status 400 or 500, and the request that got it left the cache as it
    was: only results are cached.  With status 400 the whole state is as it
    was. *)
Theorem error_answers_leave_cache w st (data : json) b status st' :
  calculate_impact w st data = (WithStatus b status, st') ->
  cache_dict st' = cache_dict st
  /\ (exists msg, b = ErrorBody msg)
  /\ ((status = 400 /\ st' = st) \/ status = 500).
Proof.
  unfold calculate_impact, internal_error.
  destruct (negb (Json.truthy data)).
  { intros [= <- <- <-]. split; [done|]. split; [by eexists|by left]. }
  destruct (validate_request_data _ data) as [[message|]|e].
  { intros [= <- <- <-]. split; [done|]. split; [by eexists|by left]. }
  2: { intros [= <- <- <-]. split; [done|]. split; [by eexists|by right]. }
  destruct (read_request w data) as [p|e].
  2: { intros [= <- <- <-]. split; [done|]. split; [by eexists|by right]. }
  destruct (get_cached_result _ _); [done|].
  destruct (compute_impact_outcome w st p) as [(r & service & ->)|(service & ->)]; [done|].
  intros [= <- <- <-]. split; [done|]. split; [by eexists|by right].
Qed.

Lemma error_answers_leave_cache_witness :
  cache_dict initial_state = cache_dict initial_state
  /\ (exists msg, ErrorBody "Missing required field: model" = ErrorBody msg)
  /\ ((400 = 400 /\ initial_state = initial_state) \/ 400 = 500).
Proof.
  apply (error_answers_leave_cache example_world initial_state record_without_model
           (ErrorBody "Missing required field: model") 400 initial_state).
  vm_compute. reflexivity.
Defined.

(** X16.  Every valid record of a batch is computed and its result stored in
    the cache, although the batch reports the record as failed: the entry is
    the [TypeError] of subscripting the [Response] that [calculate_impact]
    returned, and a single request for the same key is then served from the
    cache. *)
Theorem batch_caches_what_it_reports_as_failed w st (i : nat) (record : json) :
  (length (cache_dict st) <= 1000)%nat ->
  validate_request_data (fromisoformat w) record = Ok None ->
  exists p r st',
    read_request w record = Ok p
    /\ process_record w st i record
       = (ErrorBody ("Record " +:+ str_of_int (Z.of_nat i)
                     +:+ ": 'Response' object is not subscriptable"), st')
    /\ get_cached_result (cache_dict st') (p_cache_key p) = Some r.
Proof.
  intros Hlen Hvalid.
  destruct (valid_is_dict _ _ Hvalid) as [fields ->].
  destruct (valid_dict_shape _ _ Hvalid) as (model & it & ot & Hm & _).
  destruct (valid_request_reads w fields Hvalid) as (p & Hp & Hi & Ho).
  exists p. unfold process_record, calculate_impact.
  rewrite (dict_with_key_truthy _ _ _ Hm), Hvalid, Hp. cbn [negb].
  unfold get_cached_result.
  destruct (oget (p_cache_key p) (cache_dict st)) as [cached|] eqn:Hhit.
  - exists cached, st. by cbn [status_of exn_str].
  - destruct (compute_impact_succeeds w st p Hi Ho) as (r & service & ->).
    eexists r, _. cbn [status_of exn_str cache_dict].
    split; [done|]. split; [reflexivity|]. by apply cache_result_lookup.
Qed.

Lemma batch_caches_what_it_reports_as_failed_witness :
  exists p r st',
    read_request example_world example_request = Ok p
    /\ process_record example_world initial_state 0 example_request
       = (ErrorBody ("Record " +:+ str_of_int (Z.of_nat 0)
                     +:+ ": 'Response' object is not subscriptable"), st')
    /\ get_cached_result (cache_dict st') (p_cache_key p) = Some r.
Proof.
  apply (batch_caches_what_it_reports_as_failed example_world initial_state 0
           example_request).
  - cbn. lia.
  - vm_compute. reflexivity.
Defined.

(** X17.  The health check never answers "healthy": reading the name
    [redis_client], which the module does not bind, raises a [NameError]
    after the two self-tests ran, and the handler answers "unhealthy" with
    that error's text and status 500, whatever the state, the credentials
    and the providers' answers. *)
Theorem health_check_always_unhealthy (w : world) (st : state) :
  health_check w st = Unhealthy "name 'redis_client' is not defined" 500.
Proof. reflexivity. Qed.

End ServiceExtras.
